(** * fakesnow: patch sessions and the background server scope

    A shallow embedding of [src/fakesnow/__init__.py].  The file has two
    context managers:

    - [patch]: replaces module variables that reference the snowflake
      connector's entry points by [mock.MagicMock] wrappers around the fakes,
      and puts the originals back when the [with] block ends;
    - [server]: picks a port, runs the fake server on a background thread,
      waits until it has started, yields connection parameters and stops the
      thread when the [with] block ends.

    The interpreter state touched by [patch] ([sys.modules] and the
    dictionaries of the module objects) is threaded explicitly through a
    state-and-exception monad.  Module objects have an identity of their own:
    a patcher holds on to the module object it changed, whatever
    [sys.modules] says later.
    The thread and the operating system that [server] talks to are oracles
    indexed by a logical clock. *)

From stdpp Require Import gmap strings list fin_maps.
From Stdlib Require Import ZArith Ascii.

Local Open Scope string_scope.

(** ** Python objects and exceptions *)

(** The objects that can be bound to a module variable, as far as [patch]
    distinguishes them: it tests truthiness ([assert fn]), the class
    ([isinstance(fn, mock.MagicMock)]) and uses them as dictionary keys
    ([fake_fns.get(fn)]), which hashes them and compares them with [==].
    [oid] is the object's identity.  A function is truthy and hashable and
    equal only to itself, and so is a [MagicMock], which keeps the callable
    it was given as [side_effect].  Any other object ([None], [0], a list,
    ...) comes with its truth value and with whether it can be hashed, and is
    equal only to itself.  A proxy is another object, of a class of its
    own, that forwards [__hash__] and [__eq__] to the object it wraps: it is
    equal to it without being it. *)
Inductive pyobj :=
| PyFunc (oid : nat)
| PyMagicMock (oid : nat) (side_effect : pyobj)
| PyOther (oid : nat) (truth hashable : bool)
| PyProxy (oid : nat) (truth : bool) (wrapped : pyobj).

Fixpoint pyobj_eq_dec (a b : pyobj) : {a = b} + {a <> b}.
Proof. decide equality; solve [apply Nat.eq_dec | apply Bool.bool_dec]. Defined.

#[global] Instance pyobj_eq : EqDecision pyobj := pyobj_eq_dec.

(** [bool(fn)] *)
Definition truthy (o : pyobj) : bool :=
  match o with
  | PyOther _ truth _ => truth
  | PyProxy _ truth _ => truth
  | _ => true
  end.

(** Whether [hash(o)] returns. *)
Fixpoint hashable (o : pyobj) : bool :=
  match o with
  | PyOther _ _ h => h
  | PyProxy _ _ wrapped => hashable wrapped
  | _ => true
  end.

(** The object that decides [hash(o)] and [o == other]: the object itself,
    or the one at the end of a chain of proxies. *)
Fixpoint key_of (o : pyobj) : pyobj :=
  match o with
  | PyProxy _ _ wrapped => key_of wrapped
  | _ => o
  end.

(** [a == b] with equal hashes, which is what a dictionary asks of a key. *)
Definition py_equal (a b : pyobj) : Prop := key_of a = key_of b.

#[global] Instance py_equal_dec (a b : pyobj) : Decision (py_equal a b) :=
  pyobj_eq_dec (key_of a) (key_of b).

(** [isinstance(fn, mock.MagicMock)] *)
Definition isinstance_MagicMock (o : pyobj) : bool :=
  match o with
  | PyMagicMock _ _ => true
  | _ => false
  end.

(** The three [assert] statements of the file, by the message they carry. *)
Inductive assertion :=
| AlreadyPatched                               (* "Snowflake connector is already patched" *)
| NoModuleVar (im : string)                    (* f"No module var {im}" *)
| NotOneOf (im : string) (fn : pyobj)          (* f"Module var {im} is {fn} and not one of ..." *)
| NoPort.                                      (* assert port *)

Inductive exn :=
| AssertionError (a : assertion)
| ImportError (name : string)
| AttributeError (module attr : string)
| TypeError (msg : string)
| RuntimeError (msg : string).

Inductive result (A : Type) :=
| Ok (a : A)
| Raise (e : exn).
Arguments Ok {A} a.
Arguments Raise {A} e.

(** ** Interpreter state *)

(** A module's [__dict__]. *)
Abbreviation module_dict := (gmap string pyobj).

Record interp := {
  sys_modules : gmap string nat;      (* sys.modules: dotted name to module object *)
  heap : gmap nat module_dict;        (* the __dict__ of each module object *)
  next_oid : nat;                     (* identity of the next object created *)
  open_duck_conns : gset nat;         (* duckdb connections not yet closed *)
}.

Definition set_heap (h : gmap nat module_dict) (st : interp) : interp :=
  {| sys_modules := sys_modules st; heap := h; next_oid := next_oid st;
     open_duck_conns := open_duck_conns st |}.

(** State and exceptions: a computation maps the interpreter state to an
    outcome and the state it leaves behind.  A raised exception keeps the
    state reached so far, as in Python. *)
Definition M (A : Type) : Type := interp -> result A * interp.

Definition ret {A} (a : A) : M A := fun st => (Ok a, st).
Definition raise {A} (e : exn) : M A := fun st => (Raise e, st).
Definition bind {A B} (c : M A) (k : A -> M B) : M B :=
  fun st =>
    match c st with
    | (Ok a, st') => k a st'
    | (Raise e, st') => (Raise e, st')
    end.

Declare Scope py_scope.
Delimit Scope py_scope with py.
Notation "x <- c ;; k" := (bind c (fun x => k))
  (at level 100, c at next level, right associativity) : py_scope.
Notation "c ;;; k" := (bind c (fun _ => k))
  (at level 100, right associativity) : py_scope.
Local Open Scope py_scope.

(** [assert cond, msg] *)
Definition py_assert (cond : bool) (a : assertion) : M unit :=
  if cond then ret tt else raise (AssertionError a).

(** Hashing a dictionary key: [TypeError: unhashable type] when it cannot be
    hashed. *)
Definition hash_key (k : pyobj) : M unit :=
  if hashable k then ret tt else raise (TypeError "unhashable type").

(** [module.__dict__.get(attr)] on a module object. *)
Definition obj_var (h : gmap nat module_dict) (module : nat) (attr : string)
  : option pyobj :=
  h !! module ≫= (.!! attr).

(** The value bound to [attr] in the module registered under the name
    [module]. *)
Definition lookup_var (st : interp) (module attr : string) : option pyobj :=
  sys_modules st !! module ≫= (fun id => obj_var (heap st) id attr).

(** Attribute read on an imported module, as in
    [snowflake.connector.connect]: the module that [patch] reaches through
    its global [snowflake] is taken to be the one registered under that
    name. *)
Definition getattr (module attr : string) : M pyobj :=
  fun st =>
    match lookup_var st module attr with
    | Some o => (Ok o, st)
    | None => (Raise (AttributeError module attr), st)
    end.

(** ** Strings: [im.split(".")] *)

Fixpoint split_dot (s : string) : list string :=
  match s with
  | EmptyString => [EmptyString]
  | String c r =>
      if Ascii.eqb c "."%char then EmptyString :: split_dot r
      else match split_dot r with
           | h :: t => String c h :: t
           | [] => [String c EmptyString]
           end
  end.

(** [".".join(parts)] *)
Definition join_dot (parts : list string) : string := String.concat "." parts.

(** [".".join(im.split(".")[:-1])] *)
Definition module_name_of (im : string) : string := join_dot (removelast (split_dot im)).

(** [im.split(".")[-1]] *)
Definition fn_name_of (im : string) : string := List.last (split_dot im) EmptyString.

(** ** [fake_fns]: a dictionary keyed by callables *)

(** Entries are kept in insertion order.  A key is found when it is equal to
    a stored key (same hash and [==]); assigning to a key that is present
    replaces the value and keeps the stored key. *)
Definition pydict := list (pyobj * pyobj).

Fixpoint pydict_set (k v : pyobj) (d : pydict) : pydict :=
  match d with
  | [] => [(k, v)]
  | (k', v') :: rest =>
      if decide (py_equal k' k) then (k', v) :: rest else (k', v') :: pydict_set k v rest
  end.

(** [d.get(k)], for a key that has been hashed *)
Fixpoint pydict_get (d : pydict) (k : pyobj) : option pyobj :=
  match d with
  | [] => None
  | (k', v') :: rest => if decide (py_equal k' k) then Some v' else pydict_get rest k
  end.

(** [d.keys()] *)
Definition pydict_keys (d : pydict) : list pyobj := d.*1.

(** ** The collaborators of [patch] *)

(** The keyword arguments of [patch] that are handed to [FakeSnow] as they
    are. *)
Record fakesnow_options := {
  create_database_on_connect : bool;
  create_schema_on_connect : bool;
  db_path : option string;
  nop_regexes : option (list string);
}.

Definition default_options : fakesnow_options :=
  {| create_database_on_connect := true; create_schema_on_connect := true;
     db_path := None; nop_regexes := None |}.

(** Modelled from the spec: [fakesnow.instance.FakeSnow] is not part of the
    sources at hand.  The spec describes it as an opaque object with a
    [connect] entry point and a connection that is released by [close()]:
    creating one allocates the bound method [fs.connect] and opens
    [fs.duck_conn]. *)
Record FakeSnow := {
  fs_options : fakesnow_options;
  fs_connect : pyobj;
  duck_conn : nat;
}.

Definition FakeSnow_new (opts : fakesnow_options) : M FakeSnow :=
  fun st =>
    let fs := {| fs_options := opts;
                 fs_connect := PyFunc (next_oid st);
                 duck_conn := S (next_oid st) |} in
    (Ok fs, {| sys_modules := sys_modules st;
               heap := heap st;
               next_oid := S (S (next_oid st));
               open_duck_conns := {[ duck_conn fs ]} ∪ open_duck_conns st |}).

(** [fs.duck_conn.close()] *)
Definition duck_conn_close (fs : FakeSnow) : M unit :=
  fun st =>
    (Ok tt, {| sys_modules := sys_modules st;
               heap := heap st;
               next_oid := next_oid st;
               open_duck_conns := open_duck_conns st ∖ {[ duck_conn fs ]} |}).

(** ** [unittest.mock.patch] and [contextlib.ExitStack] *)

(** [mock.patch(im, side_effect=fake)]: the patcher before it is entered
    knows its target by name. *)
Record patcher := {
  getter : string;        (* the module's name, everything before the last dot *)
  attribute : string;     (* the name after the last dot *)
  side_effect_kw : pyobj;
}.

(** A patcher that has been entered holds the module object it changed and
    the value it replaced. *)
Record entered_patcher := {
  the_patcher : patcher;
  target : nat;
  temp_original : pyobj;
}.

(** Creating the patcher splits the target with [rsplit('.', 1)], which needs
    a dot. *)
Definition mock_patch (im : string) (fake : pyobj) : M patcher :=
  match split_dot im with
  | _ :: _ :: _ =>
      ret {| getter := module_name_of im; attribute := fn_name_of im; side_effect_kw := fake |}
  | _ => raise (TypeError "Need a valid target to patch")
  end.

(** [p.__enter__()]: resolves the module by name (here: the module registered
    under that name), reads the current value from its dictionary, builds a
    new [MagicMock] with the side effect and binds it in its place. *)
Definition mock_patch_enter (p : patcher) : M entered_patcher :=
  fun st =>
    match sys_modules st !! getter p with
    | None => (Raise (ImportError (getter p)), st)
    | Some id =>
        match heap st !! id with
        | None => (Raise (AttributeError (getter p) (attribute p)), st)
        | Some d =>
            match d !! attribute p with
            | None => (Raise (AttributeError (getter p) (attribute p)), st)
            | Some original =>
                let new := PyMagicMock (next_oid st) (side_effect_kw p) in
                (Ok {| the_patcher := p; target := id; temp_original := original |},
                 {| sys_modules := sys_modules st;
                    heap := <[id := <[attribute p := new]> d]> (heap st);
                    next_oid := S (next_oid st);
                    open_duck_conns := open_duck_conns st |})
            end
        end
    end.

(** [p.__exit__()]: [setattr(self.target, self.attribute, self.temp_original)],
    on the module object that was changed. *)
Definition mock_patch_exit (e : entered_patcher) : M unit :=
  fun st =>
    (Ok tt,
     set_heap
       (alter (insert (attribute (the_patcher e)) (temp_original e)) (target e) (heap st))
       st).

(** The exit stack holds the entered patchers, the most recent first. *)
Definition ExitStack := list entered_patcher.

(** [stack.enter_context(p)] *)
Definition enter_context (stack : ExitStack) (p : patcher) : M ExitStack :=
  e <- mock_patch_enter p ;;
  ret (e :: stack).

(** [stack.close()]: the exits run in the reverse order of the entries. *)
Fixpoint ExitStack_close (stack : ExitStack) : M unit :=
  match stack with
  | [] => ret tt
  | e :: rest => mock_patch_exit e ;;; ExitStack_close rest
  end.

(** ** [patch] *)

(** [extra_targets: str | Sequence[str]] *)
Inductive targets :=
| OneTarget (im : string)
| ManyTargets (ims : list string).

(** [list([extra_targets] if isinstance(extra_targets, str) else extra_targets)] *)
Definition targets_list (extra_targets : targets) : list string :=
  match extra_targets with
  | OneTarget im => [im]
  | ManyTargets ims => ims
  end.

Definition std_targets : list string :=
  ["snowflake.connector.connect"; "snowflake.connector.pandas_tools.write_pandas"].

(** What the generator holds while it is suspended at [yield]. *)
Record session := {
  fs : FakeSnow;
  stack : ExitStack;
}.

Section Patch.

(** [importlib.import_module(name)] runs the code of a module that is not
    loaded yet.  What that code does is outside this file: the import is a
    parameter, a computation that returns or raises and leaves a state
    behind in both cases (a failing import may have loaded other modules on
    its way). *)
Variable import_module : string -> M unit.

(** [sys.modules.get(module_name) or importlib.import_module(module_name)],
    giving the module object. *)
Definition get_or_import (module_name : string) : M nat :=
  fun st =>
    match sys_modules st !! module_name with
    | Some id => (Ok id, st)
    | None =>
        match import_module module_name st with
        | (Raise e, st') => (Raise e, st')
        | (Ok _, st') =>
            match sys_modules st' !! module_name with
            | Some id => (Ok id, st')
            | None => (Raise (ImportError module_name), st')
            end
        end
    end.

(** [module.__dict__.get(fn_name)] *)
Definition dict_get (module : nat) (fn_name : string) : M (option pyobj) :=
  fun st => (Ok (obj_var (heap st) module fn_name), st).

(** One iteration of the [for im in ...] loop. *)
Definition patch_target (fake_fns : pydict) (stack : ExitStack) (im : string) : M ExitStack :=
  let module_name := module_name_of im in
  let fn_name := fn_name_of im in
  module <- get_or_import module_name ;;
  fn <- dict_get module fn_name ;;
  match fn with
  | None => raise (AssertionError (NoModuleVar im))
  | Some fn =>
      py_assert (truthy fn) (NoModuleVar im) ;;;
      if isinstance_MagicMock fn then ret stack
      else
        hash_key fn ;;;
        match pydict_get fake_fns fn with
        | None => raise (AssertionError (NotOneOf im fn))
        | Some fake =>
            py_assert (truthy fake) (NotOneOf im fn) ;;;
            p <- mock_patch im fake ;;
            enter_context stack p
        end
  end.

Fixpoint patch_targets (fake_fns : pydict) (stack : ExitStack) (ims : list string)
  : M ExitStack :=
  match ims with
  | [] => ret stack
  | im :: rest =>
      stack' <- patch_target fake_fns stack im ;;
      patch_targets fake_fns stack' rest
  end.

(** The dictionary literal bound to [fake_fns]: the keys and values are
    evaluated from left to right, then the entries are stored, which hashes
    the keys. *)
Definition build_fake_fns (fs : FakeSnow) : M pydict :=
  connect <- getattr "snowflake.connector" "connect" ;;
  write_pandas <- getattr "snowflake.connector.pandas_tools" "write_pandas" ;;
  fakes_write_pandas <- getattr "fakesnow.fakes" "write_pandas" ;;
  hash_key connect ;;;
  hash_key write_pandas ;;;
  ret (pydict_set write_pandas fakes_write_pandas (pydict_set connect (fs_connect fs) [])).

(** The generator up to its [yield]. *)
Definition patch_setup (extra_targets : targets) (opts : fakesnow_options) : M session :=
  connect <- getattr "snowflake.connector" "connect" ;;
  py_assert (negb (isinstance_MagicMock connect)) AlreadyPatched ;;;
  fs <- FakeSnow_new opts ;;
  fake_fns <- build_fake_fns fs ;;
  stack <- patch_targets fake_fns [] (std_targets ++ targets_list extra_targets) ;;
  ret {| fs := fs; stack := stack |}.

(** The [finally] block, run when the generator is resumed. *)
Definition patch_teardown (s : session) : M unit :=
  ExitStack_close (stack s) ;;;
  duck_conn_close (fs s).

(** [with patch(extra_targets, ...): body].  When the setup raises, the
    body does not run and the exception leaves the [with] statement.
    Otherwise the body runs, then the [finally] block, and an exception of
    the body is raised again after it. *)
Definition with_patch {A} (extra_targets : targets) (opts : fakesnow_options)
    (body : M A) : M A :=
  s <- patch_setup extra_targets opts ;;
  fun st =>
    match body st with
    | (r, st') =>
        match patch_teardown s st' with
        | (Ok _, st'') => (r, st'')
        | (Raise e, st'') => (Raise e, st'')
        end
    end.

End Patch.

(** ** A concrete importer

    Modules on disk are lists of bindings: a definition of a new object, or
    [from module import name as asname], which copies the value that [name]
    has in the loaded [module] at the time of the import.  The import makes a
    new module object and registers it under the name. *)
Inductive import_stmt :=
| Def (name : string) (v : pyobj)
| FromImport (module name asname : string).

Definition exec_stmt (st : interp) (d : option module_dict) (s : import_stmt)
  : option module_dict :=
  d ← d;
  match s with
  | Def n v => Some (<[n := v]> d)
  | FromImport m n a => v ← lookup_var st m n; Some (<[a := v]> d)
  end.

Definition disk_import (disk : gmap string (list import_stmt)) (name : string) : M unit :=
  fun st =>
    match disk !! name with
    | None => (Raise (ImportError name), st)
    | Some src =>
        match foldl (exec_stmt st) (Some ∅) src with
        | None => (Raise (ImportError name), st)
        | Some d =>
            let id := fresh (dom (heap st)) in
            (Ok tt, {| sys_modules := <[name := id]> (sys_modules st);
                       heap := <[id := d]> (heap st);
                       next_oid := next_oid st;
                       open_duck_conns := open_duck_conns st |})
        end
    end.

(** An importer for a package [pkg] that has no submodule [missing]:
    importing [pkg.missing] loads the package, as a new module object when
    it is not loaded yet, and then raises. *)
Definition pkg_import (name : string) : M unit :=
  fun st =>
    if decide (name = "pkg.missing") then
      match sys_modules st !! "pkg" with
      | Some _ => (Raise (ImportError "pkg.missing"), st)
      | None =>
          let id := fresh (dom (heap st)) in
          (Raise (ImportError "pkg.missing"),
           {| sys_modules := <["pkg" := id]> (sys_modules st);
              heap := <[id := ∅]> (heap st);
              next_oid := next_oid st;
              open_duck_conns := open_duck_conns st |})
      end
    else (Raise (ImportError name), st).

(** ** [server] *)

(** A session parameter's value: [str | int | bool]. *)
Inductive pyval :=
| VStr (s : string)
| VInt (z : Z)
| VBool (b : bool).

(** The dictionary that [server] yields, one field per key. *)
Record conn_params := {
  user : string;
  password : string;
  account : string;
  host : string;
  port : Z;
  protocol : string;
  session_parameters : gmap string pyval;
  network_timeout : Z;
}.

(** What the manager does to the sockets and to the thread, in the order in
    which it does it. *)
Inductive event :=
| SocketOpen                               (* socket.socket(type=SOCK_STREAM) *)
| SocketBind (host : string) (port : Z)    (* sock.bind((host, port)) *)
| SocketGetsockname (port : Z)             (* sock.getsockname()[1] *)
| SocketClose                              (* leaving contextlib.closing *)
| ThreadStart (port : Z)                   (* thread.start(), the server on this port *)
| Sleep                                    (* sleep(0.1) *)
| SetShouldExit                            (* server.should_exit = True *)
| ThreadJoined.                            (* thread.join() has returned *)

Record world := {
  clock : nat;              (* advances with every look at the thread *)
  trace : list event;       (* oldest first *)
  should_exit : bool;       (* server.should_exit *)
}.

Definition tick (w : world) : world :=
  {| clock := S (clock w); trace := trace w; should_exit := should_exit w |}.

Definition emit (e : event) (w : world) : world :=
  {| clock := clock w; trace := trace w ++ [e]; should_exit := should_exit w |}.

(** [a | b] on dictionaries: the entries of [b] win. *)
Definition dict_or (a b : gmap string pyval) : gmap string pyval := b ∪ a.

(** [session_parameters or {}] *)
Definition or_empty (session_parameters : option (gmap string pyval)) : gmap string pyval :=
  match session_parameters with
  | Some d => d
  | None => ∅
  end.

(** [not port] for [port: int | None] *)
Definition not_port (port : option Z) : bool :=
  match port with
  | None => true
  | Some p => (p =? 0)%Z
  end.

Section Server.

(** The operating system and the server thread are seen through three
    oracles: the port that the system assigns to a socket bound to port 0,
    and what [thread.is_alive()] and [server.started] return at a given
    clock value. *)
Variable os_assigned_port : Z.
Variable thread_is_alive : nat -> bool.
Variable server_started : nat -> bool.

(** [thread.is_alive()] *)
Definition is_alive (w : world) : bool * world := (thread_is_alive (clock w), tick w).

(** [server.started] *)
Definition started (w : world) : bool * world := (server_started (clock w), tick w).

(** [sleep(0.1)] *)
Definition sleep (w : world) : world := tick (emit Sleep w).

(** The block under [if not port:]. *)
Definition probe_port (w : world) : Z * world :=
  let w := emit SocketOpen w in
  let w := emit (SocketBind "127.0.0.1" 0) w in
  let p := os_assigned_port in
  let w := emit (SocketGetsockname p) w in
  (p, emit SocketClose w).

Definition find_port (port : option Z) (w : world) : Z * world :=
  if not_port port then probe_port w
  else (match port with Some p => p | None => 0%Z end, w).

(** [while thread.is_alive() and not server.started: sleep(0.1)].  The
    right operand of [and] is read only when the left one is true.  [None]
    when the loop is still running after [fuel] iterations. *)
Fixpoint wait_started (fuel : nat) (w : world) : option world :=
  match fuel with
  | O => None
  | S fuel =>
      let (alive, w) := is_alive w in
      if alive then
        let (s, w) := started w in
        if negb s then wait_started fuel (sleep w) else Some w
      else Some w
  end.

(** [thread.join()]: returns once the thread is no longer alive. *)
Fixpoint thread_join (fuel : nat) (w : world) : option world :=
  match fuel with
  | O => None
  | S fuel =>
      if thread_is_alive (clock w) then thread_join fuel (tick w)
      else Some (emit ThreadJoined w)
  end.

(** The generator up to its [yield]. *)
Definition server_setup (fuel : nat) (port : option Z)
    (session_parameters : option (gmap string pyval)) (w : world)
  : option (result conn_params * world) :=
  let (port, w) := find_port port w in
  if (port =? 0)%Z then Some (Raise (AssertionError NoPort), w)
  else
    let w := emit (ThreadStart port) w in
    match wait_started fuel w with
    | None => None
    | Some w =>
        let (s, w) := started w in
        if negb s then Some (Raise (RuntimeError "Failed to start server"), w)
        else
          Some (Ok {| user := "fake";
                      password := "snow";
                      account := "fakesnow";
                      host := "localhost";
                      port := port;
                      protocol := "http";
                      session_parameters :=
                        dict_or {[ "CLIENT_OUT_OF_BAND_TELEMETRY_ENABLED" := VBool false ]}
                                (or_empty session_parameters);
                      network_timeout := 1 |}, w)
    end.

(** The [finally] block. *)
Definition server_teardown (fuel : nat) (w : world) : option world :=
  let w := emit SetShouldExit
             {| clock := clock w; trace := trace w; should_exit := true |} in
  thread_join fuel w.

(** [with server(port, session_parameters) as params: body].  The body is
    any computation on the world that may raise or run forever. *)
Definition with_server {A} (fuel : nat) (port : option Z)
    (session_parameters : option (gmap string pyval))
    (body : conn_params -> world -> option (result A * world)) (w : world)
  : option (result A * world) :=
  match server_setup fuel port session_parameters w with
  | None => None
  | Some (Raise e, w) => Some (Raise e, w)
  | Some (Ok params, w) =>
      match body params w with
      | None => None
      | Some (r, w) =>
          match server_teardown fuel w with
          | None => None
          | Some w => Some (r, w)
          end
      end
  end.

End Server.
(** ** Reading a session *)

(** The variables of module objects that the entered patchers of a stack
    replaced. *)
Definition patched (stack : ExitStack) : list (nat * string) :=
  (fun e => (target e, attribute (the_patcher e))) <$> stack.

(** The value remembered by the first patcher that was entered for a
    variable, which is the last one to exit. *)
Fixpoint oldest_original (stack : ExitStack) (id : nat) (n : string) : option pyobj :=
  match stack with
  | [] => None
  | e :: rest =>
      match oldest_original rest id n with
      | Some o => Some o
      | None =>
          if decide (target e = id ∧ attribute (the_patcher e) = n)
          then Some (temp_original e) else None
      end
  end.

(** The module dictionaries after [stack.close()]. *)
Fixpoint close_heap (stack : ExitStack) (h : gmap nat module_dict) : gmap nat module_dict :=
  match stack with
  | [] => h
  | e :: rest =>
      close_heap rest
        (alter (insert (attribute (the_patcher e)) (temp_original e)) (target e) h)
  end.

(** What [patch] relies on when it imports a module in the middle of the
    pass: the import may create and register modules and bind new names, but
    a variable that was bound in an existing module object keeps its
    value. *)
Definition import_frame (import_module : string -> M unit) : Prop :=
  ∀ st name u st',
    sys_modules st !! name = None →
    import_module name st = (Ok u, st') →
    ∀ id n v, obj_var (heap st) id n = Some v → obj_var (heap st') id n = Some v.

(** The import does not register another module object under a name that is
    taken. *)
Definition import_keeps_names (import_module : string -> M unit) : Prop :=
  ∀ st name u st',
    sys_modules st !! name = None →
    import_module name st = (Ok u, st') →
    ∀ m id, sys_modules st !! m = Some id → sys_modules st' !! m = Some id.

(** The same two conditions on what an import that raises leaves behind. *)
Definition failed_import_frame (import_module : string -> M unit) : Prop :=
  ∀ st name e st',
    sys_modules st !! name = None →
    import_module name st = (Raise e, st') →
    (∀ id n v, obj_var (heap st) id n = Some v → obj_var (heap st') id n = Some v) ∧
    (∀ m id, sys_modules st !! m = Some id → sys_modules st' !! m = Some id).

(** The state reached by entering the patcher for [im] with [fake] from a
    state in which the dictionary of the module object [id] is [d]. *)
Definition entered (id : nat) (im : string) (fake : pyobj) (d : module_dict) (st : interp)
  : interp :=
  {| sys_modules := sys_modules st;
     heap := <[id := <[fn_name_of im := PyMagicMock (next_oid st) fake]> d]> (heap st);
     next_oid := S (next_oid st);
     open_duck_conns := open_duck_conns st |}.

Definition entry (id : nat) (im : string) (fake fn : pyobj) : entered_patcher :=
  {| the_patcher := {| getter := module_name_of im; attribute := fn_name_of im;
                       side_effect_kw := fake |};
     target := id;
     temp_original := fn |}.

(** The property that the pass keeps for the variables bound when the scope
    opened (in [pre]): each of them either still has its value or has an
    oldest patcher that remembers it. *)
Definition restorable (pre h : gmap nat module_dict) (stack : ExitStack) : Prop :=
  ∀ id n v, obj_var pre id n = Some v →
    match oldest_original stack id n with
    | Some o => o = v
    | None => obj_var h id n = Some v
    end.


(** [fake_fns] as [patch] builds it from the values of the two standard
    variables and the two fakes. *)
Definition registry (connect fs_connect write_pandas fakes_write_pandas : pyobj) : pydict :=
  pydict_set write_pandas fakes_write_pandas (pydict_set connect fs_connect []).

(** The value of a computation that did not raise. *)
Definition fst_Ok {A} (r : result A * interp) : option A :=
  match r with
  | (Ok a, _) => Some a
  | (Raise _, _) => None
  end.

(** The variable of the module object holds a [MagicMock]. *)
Definition is_mock_var (h : gmap nat module_dict) (id : nat) (n : string) : Prop :=
  ∃ oid se, obj_var h id n = Some (PyMagicMock oid se).

(** Every variable that the stack replaced holds a [MagicMock]. *)
Definition stack_mocked (h : gmap nat module_dict) (stack : ExitStack) : Prop :=
  ∀ id n, (id, n) ∈ patched stack → is_mock_var h id n.

(** The originals on the stack are never mocks and are keys of the
    registry. *)
Definition from_registry (fake_fns : pydict) (e : entered_patcher) : Prop :=
  isinstance_MagicMock (temp_original e) = false ∧
  is_Some (pydict_get fake_fns (temp_original e)).

(** The parameters that [server] yields for a port and the caller's session
    parameters. *)
Definition yielded (port : Z) (session_parameters : option (gmap string pyval))
  : conn_params :=
  {| user := "fake";
     password := "snow";
     account := "fakesnow";
     host := "localhost";
     port := port;
     protocol := "http";
     session_parameters :=
       dict_or {[ "CLIENT_OUT_OF_BAND_TELEMETRY_ENABLED" := VBool false ]}
               (or_empty session_parameters);
     network_timeout := 1 |}.

(** The events of the port probe. *)
Definition probe_events (p : Z) : list event :=
  [SocketOpen; SocketBind "127.0.0.1" 0; SocketGetsockname p; SocketClose].

(** ** Example threads

    A server that reports [started] from clock value 4 on and whose thread
    lives until clock value 20, and one whose thread dies at clock value 5
    without having started. *)
Definition example_port : Z := 49152.
Definition example_alive (t : nat) : bool := (t <? 20)%nat.
Definition example_started (t : nat) : bool := (4 <=? t)%nat.
Definition crashing_alive (t : nat) : bool := (t <? 5)%nat.
Definition never_started (t : nat) : bool := false.

Definition example_world : world := {| clock := 0; trace := []; should_exit := false |}.

(** The world in which [server] yields. *)
Definition example_ready : world :=
  {| clock := 6;
     trace := probe_events example_port ++ [ThreadStart example_port; Sleep];
     should_exit := false |}.

(** A block that raises. *)
Definition example_body (params : conn_params) (w : world) : option (result unit * world) :=
  Some (Raise (RuntimeError "boom"), tick w).

Definition example_overrides : gmap string pyval :=
  <["CLIENT_OUT_OF_BAND_TELEMETRY_ENABLED" := VBool true]> (<["TIMEZONE" := VStr "UTC"]> ∅).

(** ** Example interpreter states

    Four loaded modules: the connector (object 10), its [pandas_tools]
    (object 11), [fakesnow.fakes] (object 12) and an application module
    (object 13) that imported [connect] by name. *)

Definition example_names : gmap string nat :=
  <["snowflake.connector" := 10]>
  (<["snowflake.connector.pandas_tools" := 11]>
  (<["fakesnow.fakes" := 12]>
  (<["app" := 13]> ∅))).

Definition example_app_dict : module_dict :=
  <["connect" := PyFunc 1]> (<["helper" := PyFunc 7]> ∅).

Definition example_heap : gmap nat module_dict :=
  <[10 := <["connect" := PyFunc 1]> (<["Connect" := PyFunc 1]> ∅)]>
  (<[11 := <["write_pandas" := PyFunc 2]> ∅]>
  (<[12 := <["write_pandas" := PyFunc 3]> ∅]>
  (<[13 := example_app_dict]> ∅))).

Definition example_interp : interp :=
  {| sys_modules := example_names; heap := example_heap; next_oid := 100;
     open_duck_conns := ∅ |}.

(** A module that is not loaded yet and imports [connect] by name. *)
Definition example_disk : gmap string (list import_stmt) :=
  <["lazy" := [FromImport "snowflake.connector" "connect" "connect"]]> ∅.

Definition example_import := disk_import example_disk.

(** The engine, the registry and the stack of a scope opened in
    [example_interp]. *)
Definition example_fs : FakeSnow :=
  {| fs_options := default_options; fs_connect := PyFunc 100; duck_conn := 101 |}.

Definition example_fake_fns : pydict :=
  registry (PyFunc 1) (PyFunc 100) (PyFunc 2) (PyFunc 3).

Definition example_std_stack : ExitStack :=
  [entry 11 "snowflake.connector.pandas_tools.write_pandas" (PyFunc 3) (PyFunc 2);
   entry 10 "snowflake.connector.connect" (PyFunc 100) (PyFunc 1)].

(** [example_interp] once the two standard targets are replaced. *)
Definition example_patched_heap : gmap nat module_dict :=
  <[10 := <["connect" := PyMagicMock 102 (PyFunc 100)]> (<["Connect" := PyFunc 1]> ∅)]>
  (<[11 := <["write_pandas" := PyMagicMock 103 (PyFunc 3)]> ∅]>
  (<[12 := <["write_pandas" := PyFunc 3]> ∅]>
  (<[13 := example_app_dict]> ∅))).

Definition example_patched : interp :=
  {| sys_modules := example_names; heap := example_patched_heap; next_oid := 104;
     open_duck_conns := {[ 101 ]} |}.

(** The dictionary that importing [lazy] builds while the scope is open, and
    the state with [lazy] loaded as object 14. *)
Definition example_lazy_dict : module_dict :=
  <["connect" := PyMagicMock 102 (PyFunc 100)]> ∅.

Definition example_lazy_loaded : interp :=
  {| sys_modules := <["lazy" := 14]> example_names;
     heap := <[14 := example_lazy_dict]> example_patched_heap;
     next_oid := 104;
     open_duck_conns := {[ 101 ]} |}.

(** [example_interp] after [with patch(["app.connect", "lazy.connect"]): pass]. *)
Definition example_closed : interp :=
  {| sys_modules := <["lazy" := 14]> example_names;
     heap := <[14 := example_lazy_dict]> example_heap;
     next_oid := 105;
     open_duck_conns := ∅ |}.

(** ** More readers of a session and of a target *)




(** The variable that an entered patcher replaced holds a mock with the
    patcher's side effect. *)
Definition holds_fake (h : gmap nat module_dict) (e : entered_patcher) : Prop :=
  ∃ oid, obj_var h (target e) (attribute (the_patcher e))
           = Some (PyMagicMock oid (side_effect_kw (the_patcher e))).

(** The side effect of an entered patcher is what the registry gives for the
    value it replaced. *)
Definition fake_of_original (fake_fns : pydict) (e : entered_patcher) : Prop :=
  pydict_get fake_fns (temp_original e) = Some (side_effect_kw (the_patcher e)).



(** An event of the setup: the port probe, the start of the thread or a
    sleep, and nothing that stops the thread. *)
Definition setup_event (e : event) : bool :=
  match e with
  | SetShouldExit | ThreadJoined => false
  | _ => true
  end.

(** ** More example states *)

(** [example_patched] with two odd variables in [app]: a list, which cannot
    be hashed, and a zero. *)
Definition example_odd : interp :=
  {| sys_modules := example_names;
     heap := <[13 := <["cache" := PyOther 8 true false]>
                      (<["retries" := PyOther 9 false true]> example_app_dict)]>
               example_patched_heap;
     next_oid := 104;
     open_duck_conns := {[ 101 ]} |}.

(** [example_patched] after [pkg_import] failed to import [pkg.missing]:
    the package [pkg] is loaded, as object 14. *)
Definition example_pkg_loaded : interp :=
  {| sys_modules := <["pkg" := 14]> example_names;
     heap := <[14 := ∅]> example_patched_heap;
     next_oid := 104;
     open_duck_conns := {[ 101 ]} |}.

(** [example_interp] in which [app.connect] is a proxy around the
    connector's [connect], as a tracing wrapper leaves it. *)
Definition example_wrapped : interp :=
  {| sys_modules := example_names;
     heap := <[13 := <["connect" := PyProxy 8 true (PyFunc 1)]> example_app_dict]>
               example_heap;
     next_oid := 100;
     open_duck_conns := ∅ |}.

(** A server that is ready from clock value 7 on, on a thread that never
    ends by itself, and a thread that neither starts the server nor ends. *)
Definition slow_started (t : nat) : bool := (7 <=? t)%nat.
Definition always_alive (t : nat) : bool := true.

(** * Properties of [patch] *)

(** ** The exit stack *)

Lemma ExitStack_close_run (stack : ExitStack) (st : interp) :
  ExitStack_close stack st = (Ok tt, set_heap (close_heap stack (heap st)) st).
Proof.
  revert st. induction stack as [|e rest IH]; intros st.
  - destruct st; reflexivity.
  - cbn [ExitStack_close close_heap]. unfold bind, mock_patch_exit.
    rewrite IH. reflexivity.
Qed.

Lemma patch_teardown_run (s : session) (st : interp) :
  patch_teardown s st =
    (Ok tt, {| sys_modules := sys_modules st;
               heap := close_heap (stack s) (heap st);
               next_oid := next_oid st;
               open_duck_conns := open_duck_conns st ∖ {[ duck_conn (fs s) ]} |}).
Proof.
  unfold patch_teardown, bind. rewrite ExitStack_close_run. reflexivity.
Qed.


(** After the stack is closed, a variable of a module object holds what the
    oldest patcher for it remembered, and what it held before the close when
    no patcher was entered for it. *)
Lemma close_heap_lookup (stack : ExitStack) (h : gmap nat module_dict)
    (id : nat) (n : string) (d : module_dict) :
  h !! id = Some d →
  obj_var (close_heap stack h) id n =
    match oldest_original stack id n with
    | Some o => Some o
    | None => d !! n
    end.
Proof.
  revert h d. induction stack as [|e rest IH]; intros h d Hm;
    cbn [close_heap oldest_original].
  - unfold obj_var. rewrite Hm. reflexivity.
  - set (h' := alter _ _ h).
    destruct (decide (target e = id)) as [Ht|Ht].
    + assert (Hm' : h' !! id = Some (<[attribute (the_patcher e) := temp_original e]> d)).
      { unfold h'. subst id. rewrite lookup_alter_eq, Hm. reflexivity. }
      rewrite (IH _ _ Hm').
      destruct (oldest_original rest id n); [reflexivity|].
      destruct (decide (attribute (the_patcher e) = n)) as [Ha|Ha].
      * subst n. rewrite lookup_insert_eq. rewrite decide_True by done. reflexivity.
      * rewrite lookup_insert_ne by done. rewrite decide_False by tauto. reflexivity.
    + assert (Hm' : h' !! id = Some d).
      { unfold h'. rewrite lookup_alter_ne by done. exact Hm. }
      rewrite (IH _ _ Hm').
      destruct (oldest_original rest id n); [reflexivity|].
      rewrite decide_False by tauto. reflexivity.
Qed.

Lemma oldest_original_patched (stack : ExitStack) (id : nat) (n : string) :
  (id, n) ∈ patched stack ↔ is_Some (oldest_original stack id n).
Proof.
  induction stack as [|e rest IH]; cbn [patched oldest_original fmap list_fmap].
  - rewrite elem_of_nil. split; [tauto|]. intros [? ?]; discriminate.
  - rewrite elem_of_cons. fold (patched rest). rewrite IH.
    destruct (oldest_original rest id n) as [o|].
    + split; eauto.
    + case_decide as Hd.
      * destruct Hd as [<- <-]. split; eauto.
      * split; [|intros [? ?]; discriminate].
        intros [Heq|[? ?]]; [|discriminate].
        inversion Heq; subst. tauto.
Qed.

(** ** The monad *)

Lemma bind_Ok {A B} (c : M A) (k : A → M B) (st st' : interp) (b : B) :
  bind c k st = (Ok b, st') →
  ∃ a st1, c st = (Ok a, st1) ∧ k a st1 = (Ok b, st').
Proof.
  unfold bind. destruct (c st) as [[a|e] st1]; [eauto|discriminate].
Qed.

Lemma bind_Raise {A B} (c : M A) (k : A → M B) (st st' : interp) (e : exn) :
  c st = (Raise e, st') → bind c k st = (Raise e, st').
Proof. unfold bind. intros ->. reflexivity. Qed.

Lemma bind_run {A B} (c : M A) (k : A → M B) (st st1 : interp) (a : A) :
  c st = (Ok a, st1) → bind c k st = k a st1.
Proof. unfold bind. intros ->. reflexivity. Qed.

Lemma getattr_Ok (module attr : string) (st st' : interp) (o : pyobj) :
  getattr module attr st = (Ok o, st') →
  lookup_var st module attr = Some o ∧ st' = st.
Proof.
  unfold getattr. destruct (lookup_var _ _ _); [|discriminate].
  intros [= -> ->]. done.
Qed.

Lemma getattr_run (module attr : string) (st : interp) (o : pyobj) :
  lookup_var st module attr = Some o →
  getattr module attr st = (Ok o, st).
Proof. unfold getattr. intros ->. reflexivity. Qed.

Lemma hash_key_Ok (k : pyobj) (st st' : interp) (u : unit) :
  hash_key k st = (Ok u, st') → hashable k = true ∧ st' = st.
Proof. unfold hash_key. destruct (hashable k); cbn; [intros [= _ ->]; done|discriminate]. Qed.

Lemma py_assert_Ok (cond : bool) (a : assertion) (st st' : interp) (u : unit) :
  py_assert cond a st = (Ok u, st') → cond = true ∧ st' = st.
Proof. destruct cond; cbn; [intros [= _ ->]; done|discriminate]. Qed.

(** ** One pass over the targets *)

Section PatchFacts.

Variable import_module : string -> M unit.

Abbreviation get_or_import' := (get_or_import import_module).
Abbreviation patch_target' := (patch_target import_module).
Abbreviation patch_targets' := (patch_targets import_module).

(** Resolving a module gives the object registered under the name; a module
    that is loaded is not imported again. *)
Lemma get_or_import_Ok (name : string) (st st1 : interp) (id : nat) :
  get_or_import' name st = (Ok id, st1) →
  sys_modules st1 !! name = Some id ∧
  (sys_modules st !! name = None → ∃ u, import_module name st = (Ok u, st1)) ∧
  (is_Some (sys_modules st !! name) → st1 = st).
Proof.
  unfold get_or_import. destruct (sys_modules st !! name) as [id0|] eqn:Hl.
  - intros [= <- <-]. repeat split; try done.
  - destruct (import_module name st) as [[u|e] st'] eqn:Hi; [|discriminate].
    destruct (sys_modules st' !! name) as [id1|] eqn:Hl1; [|discriminate].
    intros [= <- <-]. split; [done|]. split; [eauto|].
    intros [? ?]; discriminate.
Qed.

Lemma get_or_import_loaded (name : string) (st : interp) (id : nat) :
  sys_modules st !! name = Some id →
  get_or_import' name st = (Ok id, st).
Proof. intros H. unfold get_or_import. rewrite H. reflexivity. Qed.

(** The outcomes of one iteration, read off the code: the only ways to go
    on are the [continue] on a [MagicMock] and the entered patcher. *)
Lemma patch_target_Ok (fake_fns : pydict) (stack stack' : ExitStack) (im : string)
    (st st' : interp) :
  patch_target' fake_fns stack im st = (Ok stack', st') →
  ∃ id d st1 fn,
    get_or_import' (module_name_of im) st = (Ok id, st1) ∧
    heap st1 !! id = Some d ∧
    d !! fn_name_of im = Some fn ∧
    truthy fn = true ∧
    ((isinstance_MagicMock fn = true ∧ stack' = stack ∧ st' = st1) ∨
     (isinstance_MagicMock fn = false ∧ hashable fn = true ∧
      ∃ fake, pydict_get fake_fns fn = Some fake ∧ truthy fake = true ∧
              stack' = entry id im fake fn :: stack ∧ st' = entered id im fake d st1)).
Proof.
  unfold patch_target. intros H.
  apply bind_Ok in H as (id & st1 & Hg & H).
  destruct (get_or_import_Ok _ _ _ _ Hg) as (Hid & _).
  apply bind_Ok in H as (ofn & st2 & Hget & H).
  unfold dict_get in Hget. injection Hget as <- <-.
  unfold obj_var in H.
  destruct (heap st1 !! id) as [d|] eqn:Hd; [|discriminate]. cbn in H.
  destruct (d !! fn_name_of im) as [fn|] eqn:Hfn; [|discriminate].
  apply bind_Ok in H as ([] & st2 & Htr & H). apply py_assert_Ok in Htr as [Htr ->].
  exists id, d, st1, fn. repeat split; try done.
  destruct (isinstance_MagicMock fn) eqn:Hmock.
  - injection H as <- <-. left. done.
  - apply bind_Ok in H as ([] & st2 & Hh & H). apply hash_key_Ok in Hh as [Hh ->].
    destruct (pydict_get fake_fns fn) as [fake|] eqn:Hfake; [|discriminate].
    apply bind_Ok in H as ([] & st2 & Htf & H). apply py_assert_Ok in Htf as [Htf ->].
    apply bind_Ok in H as (p & st2 & Hp & H).
    unfold mock_patch in Hp.
    destruct (split_dot im) as [|? [|? ?]] eqn:Hsp; try discriminate.
    injection Hp as <- <-.
    unfold enter_context, bind, mock_patch_enter in H. cbn [getter attribute] in H.
    rewrite Hid, Hd, Hfn in H. injection H as <- <-.
    right. split; [done|]. split; [done|]. exists fake. repeat split; done.
Qed.

Lemma obj_var_entered (id : nat) (im : string) (fake : pyobj) (d : module_dict)
    (st1 : interp) (id' : nat) (n : string) :
  heap st1 !! id = Some d →
  obj_var (heap (entered id im fake d st1)) id' n =
    if decide (id = id' ∧ fn_name_of im = n)
    then Some (PyMagicMock (next_oid st1) fake)
    else obj_var (heap st1) id' n.
Proof.
  intros Hd. unfold obj_var. cbn [entered heap].
  rewrite lookup_insert. destruct (decide (id = id')) as [<-|Hm].
  - cbn. rewrite Hd. cbn. rewrite lookup_insert.
    destruct (decide (fn_name_of im = n)) as [<-|Hn].
    + rewrite decide_True by done. reflexivity.
    + rewrite decide_False by tauto. reflexivity.
  - rewrite decide_False by tauto. reflexivity.
Qed.

Lemma patch_targets_cons (fake_fns : pydict) (im : string) (rest : list string)
    (stack : ExitStack) :
  patch_targets' fake_fns stack (im :: rest) =
    bind (patch_target' fake_fns stack im)
         (fun stack1 => patch_targets' fake_fns stack1 rest).
Proof. reflexivity. Qed.

Lemma patch_targets_app (fake_fns : pydict) (ims1 ims2 : list string)
    (stack : ExitStack) (st : interp) :
  patch_targets' fake_fns stack (ims1 ++ ims2) st =
    bind (patch_targets' fake_fns stack ims1)
         (fun stack1 => patch_targets' fake_fns stack1 ims2) st.
Proof.
  revert stack st. induction ims1 as [|im rest IH]; intros stack st.
  - reflexivity.
  - cbn [app patch_targets]. unfold bind.
    destruct (patch_target' fake_fns stack im st) as [[stack1|e] st1] eqn:Hstep;
      [|reflexivity].
    rewrite IH. reflexivity.
Qed.

(** What a successful setup went through: the entry guard, the engine, the
    registry built from the two standard variables, and the pass. *)
Lemma patch_setup_Ok (extra_targets : targets) (opts : fakesnow_options)
    (st st' : interp) (s : session) :
  patch_setup import_module extra_targets opts st = (Ok s, st') →
  ∃ connect write_pandas fakes_write_pandas,
    lookup_var st "snowflake.connector" "connect" = Some connect ∧
    isinstance_MagicMock connect = false ∧
    lookup_var st "snowflake.connector.pandas_tools" "write_pandas" = Some write_pandas ∧
    lookup_var st "fakesnow.fakes" "write_pandas" = Some fakes_write_pandas ∧
    Some (fs s) = fst_Ok (FakeSnow_new opts st) ∧
    patch_targets' (registry connect (PyFunc (next_oid st)) write_pandas fakes_write_pandas)
      [] (std_targets ++ targets_list extra_targets) (snd (FakeSnow_new opts st))
      = (Ok (stack s), st').
Proof.
  unfold patch_setup. intros H.
  apply bind_Ok in H as (connect & st1 & Hc & H). apply getattr_Ok in Hc as [Hc ->].
  apply bind_Ok in H as ([] & st1 & Hguard & H).
  apply py_assert_Ok in Hguard as [Hmock ->]. apply negb_true_iff in Hmock.
  apply bind_Ok in H as (fs0 & st1 & Hfs & H).
  apply bind_Ok in H as (fake_fns & st2 & Hreg & H).
  apply bind_Ok in H as (stk & st3 & Hpass & H).
  injection H as <- <-. cbn [fs stack].
  unfold build_fake_fns in Hreg.
  apply bind_Ok in Hreg as (c' & st4 & Hc' & Hreg). apply getattr_Ok in Hc' as [Hc' ->].
  apply bind_Ok in Hreg as (wp & st4 & Hwp & Hreg). apply getattr_Ok in Hwp as [Hwp ->].
  apply bind_Ok in Hreg as (fwp & st4 & Hfwp & Hreg). apply getattr_Ok in Hfwp as [Hfwp ->].
  apply bind_Ok in Hreg as ([] & st4 & Hh1 & Hreg). apply hash_key_Ok in Hh1 as [_ ->].
  apply bind_Ok in Hreg as ([] & st4 & Hh2 & Hreg). apply hash_key_Ok in Hh2 as [_ ->].
  injection Hreg as <- <-.
  unfold FakeSnow_new in Hfs. injection Hfs as <- <-.
  unfold lookup_var in *. cbn [sys_modules heap fs_connect] in *.
  rewrite Hc in Hc'. injection Hc' as <-.
  exists connect, wp, fwp. repeat split; try done.
Qed.

(** ** What the stack remembers *)

Lemma patch_targets_from_registry (fake_fns : pydict) (ims : list string)
    (stack stack' : ExitStack) (st st' : interp) :
  patch_targets' fake_fns stack ims st = (Ok stack', st') →
  Forall (from_registry fake_fns) stack →
  Forall (from_registry fake_fns) stack'.
Proof.
  revert stack st. induction ims as [|im rest IH]; intros stack st; cbn [patch_targets].
  - intros [= <- <-]. done.
  - intros H Hall. apply bind_Ok in H as (stack1 & st1 & Hstep & Hrest).
    eapply IH; [exact Hrest|].
    destruct (patch_target_Ok _ _ _ _ _ _ Hstep) as (id & d & st2 & fn & _ & _ & _ & _ & Hcase).
    destruct Hcase as [(_ & -> & _)|(Hnomock & _ & fake & Hget & _ & -> & _)]; [done|].
    constructor; [|done]. split; cbn; [done|]. rewrite Hget. eauto.
Qed.

Lemma registry_keys (connect fs_connect write_pandas fakes_write_pandas k : pyobj) :
  is_Some (pydict_get (registry connect fs_connect write_pandas fakes_write_pandas) k) →
  py_equal connect k ∨ py_equal write_pandas k.
Proof.
  unfold registry. cbn. destruct (decide (py_equal connect write_pandas)) as [Heq|Hne]; cbn.
  - case_decide; [auto|]. intros [? ?]; discriminate.
  - case_decide; [auto|]. case_decide; [auto|]. intros [? ?]; discriminate.
Qed.

(** A key is not found exactly when it is equal to none of the keys. *)
Lemma pydict_get_None (d : pydict) (k : pyobj) :
  Forall (fun k' => ¬ py_equal k' k) (pydict_keys d) → pydict_get d k = None.
Proof.
  induction d as [|[k' v'] rest IH]; [reflexivity|].
  cbn. intros Hall. apply Forall_cons in Hall as [Hk Hrest].
  rewrite decide_False by exact Hk. by apply IH.
Qed.

(** The entry guard: nothing happens before it. *)
Lemma entry_guard_raises (extra_targets : targets) (opts : fakesnow_options)
    (st : interp) (oid : nat) (se : pyobj) :
  lookup_var st "snowflake.connector" "connect" = Some (PyMagicMock oid se) →
  patch_setup import_module extra_targets opts st
    = (Raise (AssertionError AlreadyPatched), st).
Proof.
  intros Hc.
  unfold patch_setup. rewrite (bind_run _ _ _ _ _ (getattr_run _ _ _ _ Hc)).
  apply bind_Raise. reflexivity.
Qed.

(** C3.  When [snowflake.connector.connect] already holds a [MagicMock],
    [patch] raises the "already patched" [AssertionError] at its first
    statement: the setup and the whole [with] statement give that exception
    and leave the interpreter state as it was. *)
Theorem repatch_raises {A} (extra_targets : targets) (opts : fakesnow_options)
    (body : M A) (st : interp) (connect : pyobj) :
  lookup_var st "snowflake.connector" "connect" = Some connect →
  isinstance_MagicMock connect = true →
  patch_setup import_module extra_targets opts st
    = (Raise (AssertionError AlreadyPatched), st) ∧
  with_patch import_module extra_targets opts body st
    = (Raise (AssertionError AlreadyPatched), st).
Proof.
  intros Hc Hmock.
  assert (Hsetup : patch_setup import_module extra_targets opts st
                   = (Raise (AssertionError AlreadyPatched), st)).
  { destruct connect; try discriminate. eapply entry_guard_raises. exact Hc. }
  split; [exact Hsetup|].
  unfold with_patch. apply bind_Raise. exact Hsetup.
Qed.

(** C7, amended.  A target whose resolved value is hashable, as functions
    are, is not a [MagicMock] and is not equal ([==]) to any key of
    [fake_fns] makes the iteration, and with it the whole pass, raise an
    [AssertionError] in the state left by resolving the module.  In every
    scope that was set up, each entered patcher remembers a value that is
    equal to the one that one of the two standard variables had when the
    scope opened. *)
Theorem unmapped_target_raises :
  (∀ (fake_fns : pydict) (ims1 ims2 : list string) (im : string)
     (stack0 stack : ExitStack) (st0 st st1 : interp) (id : nat) (fn : pyobj),
     patch_targets' fake_fns stack0 ims1 st0 = (Ok stack, st) →
     get_or_import' (module_name_of im) st = (Ok id, st1) →
     obj_var (heap st1) id (fn_name_of im) = Some fn →
     isinstance_MagicMock fn = false →
     hashable fn = true →
     Forall (fun k => ¬ py_equal k fn) (pydict_keys fake_fns) →
     ∃ a, patch_target' fake_fns stack im st = (Raise (AssertionError a), st1) ∧
          patch_targets' fake_fns stack0 (ims1 ++ im :: ims2) st0
            = (Raise (AssertionError a), st1)) ∧
  (∀ (extra_targets : targets) (opts : fakesnow_options) (st st' : interp) (s : session),
     patch_setup import_module extra_targets opts st = (Ok s, st') →
     ∀ e, e ∈ stack s →
       ∃ original,
         (lookup_var st "snowflake.connector" "connect" = Some original ∨
          lookup_var st "snowflake.connector.pandas_tools" "write_pandas"
            = Some original) ∧
         py_equal original (temp_original e)).
Proof.
  split.
  - intros fake_fns ims1 ims2 im stack0 stack st0 st st1 id fn Hpre Hg Hfn Hmock Hhash Hkeys.
    pose proof (pydict_get_None _ _ Hkeys) as Hget.
    assert (Hstep : ∃ a, patch_target' fake_fns stack im st = (Raise (AssertionError a), st1)).
    { unfold patch_target. rewrite (bind_run _ _ _ _ _ Hg).
      unfold bind at 1. unfold dict_get. rewrite Hfn.
      unfold bind, py_assert, hash_key. destruct (truthy fn); cbn [ret raise]; [|eauto].
      rewrite Hmock, Hhash, Hget. eauto. }
    destruct Hstep as [a Hstep]. exists a. split; [exact Hstep|].
    rewrite patch_targets_app. rewrite (bind_run _ _ _ _ _ Hpre).
    cbn [patch_targets]. apply bind_Raise. exact Hstep.
  - intros extra_targets opts st st' s Hsetup e He.
    destruct (patch_setup_Ok _ _ _ _ _ Hsetup)
      as (c & wp & fwp & Hc & _ & Hwp & _ & _ & Hpass).
    pose proof (patch_targets_from_registry _ _ _ _ _ _ Hpass (Forall_nil_2 _)) as Hall.
    rewrite Forall_forall in Hall. destruct (Hall e He) as [_ Hkey].
    apply registry_keys in Hkey as [Heq|Heq]; [exists c|exists wp]; auto.
Qed.

(** ** Restoration *)

Hypothesis import_keeps_bindings : import_frame import_module.

Lemma get_or_import_frame (name : string) (st st1 : interp) (id : nat) :
  get_or_import' name st = (Ok id, st1) →
  ∀ id' n v, obj_var (heap st) id' n = Some v → obj_var (heap st1) id' n = Some v.
Proof.
  intros Hg id' n v Hv.
  destruct (get_or_import_Ok _ _ _ _ Hg) as (_ & Hnew & Hold).
  destruct (sys_modules st !! name) as [id0|] eqn:Hl.
  - rewrite (Hold (mk_is_Some _ _ eq_refl)). exact Hv.
  - destruct (Hnew eq_refl) as [u Himp]. eapply import_keeps_bindings; eauto.
Qed.

Lemma restorable_frame (pre h h1 : gmap nat module_dict) (stack : ExitStack) :
  (∀ id n v, obj_var h id n = Some v → obj_var h1 id n = Some v) →
  restorable pre h stack → restorable pre h1 stack.
Proof.
  intros Hfr Hr id n v Hpre. specialize (Hr id n v Hpre).
  destruct (oldest_original stack id n); [exact Hr|]. by apply Hfr.
Qed.

Lemma restorable_entered (pre : gmap nat module_dict) (stack : ExitStack)
    (id : nat) (im : string) (fake fn : pyobj) (d : module_dict) (st1 : interp) :
  heap st1 !! id = Some d →
  d !! fn_name_of im = Some fn →
  restorable pre (heap st1) stack →
  restorable pre (heap (entered id im fake d st1)) (entry id im fake fn :: stack).
Proof.
  intros Hd Hfn Hr id' n v Hpre. specialize (Hr id' n v Hpre).
  cbn [oldest_original entry the_patcher target attribute temp_original].
  destruct (oldest_original stack id' n); [exact Hr|].
  rewrite obj_var_entered by exact Hd.
  case_decide as Hdec; [|exact Hr].
  destruct Hdec as [<- <-]. unfold obj_var in Hr. rewrite Hd in Hr. cbn in Hr. congruence.
Qed.

Lemma patch_target_restorable (pre : gmap nat module_dict) (fake_fns : pydict)
    (stack stack' : ExitStack) (im : string) (st st' : interp) :
  patch_target' fake_fns stack im st = (Ok stack', st') →
  restorable pre (heap st) stack →
  restorable pre (heap st') stack'.
Proof.
  intros Hrun Hr.
  destruct (patch_target_Ok _ _ _ _ _ _ Hrun)
    as (id & d & st1 & fn & Hg & Hd & Hfn & _ & Hcase).
  pose proof (get_or_import_frame _ _ _ _ Hg) as Hfr.
  pose proof (restorable_frame _ _ _ _ Hfr Hr) as Hr1.
  destruct Hcase as [(_ & -> & ->)|(_ & _ & fake & _ & _ & -> & ->)].
  - exact Hr1.
  - by apply restorable_entered.
Qed.

Lemma patch_targets_restorable (pre : gmap nat module_dict) (fake_fns : pydict)
    (ims : list string) (stack stack' : ExitStack) (st st' : interp) :
  patch_targets' fake_fns stack ims st = (Ok stack', st') →
  restorable pre (heap st) stack →
  restorable pre (heap st') stack'.
Proof.
  revert stack st. induction ims as [|im rest IH]; intros stack st; cbn [patch_targets].
  - intros [= <- <-]. done.
  - intros H Hr. apply bind_Ok in H as (stack1 & st1 & Hstep & Hrest).
    eapply IH; [exact Hrest|]. eapply patch_target_restorable; eauto.
Qed.

Lemma restorable_init (pre : gmap nat module_dict) : restorable pre pre [].
Proof. intros id n v Hpre. exact Hpre. Qed.


(** ** Variables that hold a mock keep holding one during the pass *)

Lemma is_mock_var_frame (h h1 : gmap nat module_dict) (id : nat) (n : string) :
  (∀ id n v, obj_var h id n = Some v → obj_var h1 id n = Some v) →
  is_mock_var h id n → is_mock_var h1 id n.
Proof. intros Hfr (oid & se & Hl). exists oid, se. by apply Hfr. Qed.

Lemma is_mock_var_entered (id : nat) (im : string) (fake : pyobj) (d : module_dict)
    (st1 : interp) (id' : nat) (n : string) :
  heap st1 !! id = Some d →
  is_mock_var (heap st1) id' n →
  is_mock_var (heap (entered id im fake d st1)) id' n.
Proof.
  intros Hd (oid & se & Hl). unfold is_mock_var.
  rewrite obj_var_entered by done. case_decide; eauto.
Qed.

Lemma patch_target_keeps_mock (fake_fns : pydict) (stack stack' : ExitStack) (im : string)
    (st st' : interp) (id : nat) (n : string) :
  patch_target' fake_fns stack im st = (Ok stack', st') →
  is_mock_var (heap st) id n → is_mock_var (heap st') id n.
Proof.
  intros Hrun Hmock.
  destruct (patch_target_Ok _ _ _ _ _ _ Hrun)
    as (id0 & d & st1 & fn & Hg & Hd & Hfn & _ & Hcase).
  pose proof (get_or_import_frame _ _ _ _ Hg) as Hfr.
  pose proof (is_mock_var_frame _ _ _ _ Hfr Hmock) as Hmock1.
  destruct Hcase as [(_ & -> & ->)|(_ & _ & fake & _ & _ & -> & ->)].
  - exact Hmock1.
  - by apply is_mock_var_entered.
Qed.

Lemma patch_targets_keeps_mock (fake_fns : pydict) (ims : list string)
    (stack stack' : ExitStack) (st st' : interp) (id : nat) (n : string) :
  patch_targets' fake_fns stack ims st = (Ok stack', st') →
  is_mock_var (heap st) id n → is_mock_var (heap st') id n.
Proof.
  revert stack st. induction ims as [|im rest IH]; intros stack st; cbn [patch_targets].
  - intros [= <- <-]. done.
  - intros H Hmock. apply bind_Ok in H as (stack1 & st1 & Hstep & Hrest).
    eapply IH; [exact Hrest|]. eapply patch_target_keeps_mock; eauto.
Qed.

(** No variable is replaced twice: a variable that the stack already
    replaced holds a mock, and the pass steps over mocks. *)
Lemma patch_target_once (fake_fns : pydict) (stack stack' : ExitStack) (im : string)
    (st st' : interp) :
  patch_target' fake_fns stack im st = (Ok stack', st') →
  stack_mocked (heap st) stack ∧ NoDup (patched stack) →
  stack_mocked (heap st') stack' ∧ NoDup (patched stack').
Proof.
  intros Hrun [Hsm Hnd].
  destruct (patch_target_Ok _ _ _ _ _ _ Hrun)
    as (id & d & st1 & fn & Hg & Hd & Hfn & _ & Hcase).
  pose proof (get_or_import_frame _ _ _ _ Hg) as Hfr.
  assert (Hsm1 : stack_mocked (heap st1) stack).
  { intros id' n Hin. eapply is_mock_var_frame; eauto. }
  destruct Hcase as [(_ & -> & ->)|(Hnomock & _ & fake & _ & _ & -> & ->)]; [done|].
  split.
  - intros id' n Hin. cbn [patched fmap list_fmap entry the_patcher target attribute] in Hin.
    apply elem_of_cons in Hin as [[= -> ->]|Hin].
    + unfold is_mock_var. rewrite obj_var_entered by done.
      rewrite decide_True by done. eauto.
    + apply is_mock_var_entered; [done|]. by apply Hsm1.
  - cbn [patched fmap list_fmap entry the_patcher target attribute].
    apply NoDup_cons. split; [|exact Hnd].
    intros Hin. destruct (Hsm1 _ _ Hin) as (oid & se & Hl).
    unfold obj_var in Hl. rewrite Hd in Hl. cbn in Hl.
    rewrite Hfn in Hl. injection Hl as ->. discriminate.
Qed.

Lemma patch_targets_once (fake_fns : pydict) (ims : list string)
    (stack stack' : ExitStack) (st st' : interp) :
  patch_targets' fake_fns stack ims st = (Ok stack', st') →
  stack_mocked (heap st) stack ∧ NoDup (patched stack) →
  stack_mocked (heap st') stack' ∧ NoDup (patched stack').
Proof.
  revert stack st. induction ims as [|im rest IH]; intros stack st; cbn [patch_targets].
  - intros [= <- <-]. done.
  - intros H Hinv. apply bind_Ok in H as (stack1 & st1 & Hstep & Hrest).
    eapply IH; [exact Hrest|]. eapply patch_target_once; eauto.
Qed.

(** C6.  A target whose value in its resolved module is a [MagicMock] is
    stepped over: the iteration does not raise, the stack is the one it was
    given and the state is the one left by resolving the module.  As a
    result, in every scope that was set up, no entered patcher remembers a
    mock as its original and no variable of a module object was replaced
    twice. *)
Theorem mock_target_skipped :
  (∀ (fake_fns : pydict) (stack : ExitStack) (im : string) (st st1 : interp)
     (id : nat) (fn : pyobj),
     get_or_import' (module_name_of im) st = (Ok id, st1) →
     obj_var (heap st1) id (fn_name_of im) = Some fn →
     isinstance_MagicMock fn = true →
     patch_target' fake_fns stack im st = (Ok stack, st1)) ∧
  (∀ (extra_targets : targets) (opts : fakesnow_options) (st st' : interp) (s : session),
     patch_setup import_module extra_targets opts st = (Ok s, st') →
     Forall (fun e => isinstance_MagicMock (temp_original e) = false) (stack s) ∧
     NoDup (patched (stack s))).
Proof.
  split.
  - intros fake_fns stack im st st1 id fn Hg Hfn Hmock.
    unfold patch_target. rewrite (bind_run _ _ _ _ _ Hg).
    unfold bind at 1. unfold dict_get. rewrite Hfn.
    destruct fn; try discriminate. reflexivity.
  - intros extra_targets opts st st' s Hsetup.
    destruct (patch_setup_Ok _ _ _ _ _ Hsetup) as (c & wp & fwp & _ & _ & _ & _ & _ & Hpass).
    split.
    + eapply Forall_impl.
      * eapply patch_targets_from_registry; [exact Hpass|constructor].
      * intros e [He _]. exact He.
    + eapply patch_targets_once; [exact Hpass|]. split.
      * intros id n Hin. cbn in Hin. by apply elem_of_nil in Hin.
      * constructor.
Qed.

(** ** The guard of the next scope *)

Hypothesis import_registers_new_names : import_keeps_names import_module.

Lemma patch_target_names (fake_fns : pydict) (stack stack' : ExitStack) (im : string)
    (st st' : interp) (m : string) (id : nat) :
  patch_target' fake_fns stack im st = (Ok stack', st') →
  sys_modules st !! m = Some id → sys_modules st' !! m = Some id.
Proof.
  intros Hrun Hm.
  destruct (patch_target_Ok _ _ _ _ _ _ Hrun)
    as (id0 & d & st1 & fn & Hg & Hd & Hfn & _ & Hcase).
  assert (Hm1 : sys_modules st1 !! m = Some id).
  { destruct (get_or_import_Ok _ _ _ _ Hg) as (_ & Hnew & Hold).
    destruct (sys_modules st !! module_name_of im) as [id1|] eqn:Hl.
    - rewrite (Hold (mk_is_Some _ _ eq_refl)). exact Hm.
    - destruct (Hnew eq_refl) as [u Himp]. eapply import_registers_new_names; eauto. }
  destruct Hcase as [(_ & -> & ->)|(_ & _ & fake & _ & _ & -> & ->)]; exact Hm1.
Qed.

Lemma patch_targets_names (fake_fns : pydict) (ims : list string)
    (stack stack' : ExitStack) (st st' : interp) (m : string) (id : nat) :
  patch_targets' fake_fns stack ims st = (Ok stack', st') →
  sys_modules st !! m = Some id → sys_modules st' !! m = Some id.
Proof.
  revert stack st. induction ims as [|im rest IH]; intros stack st; cbn [patch_targets].
  - intros [= <- <-]. done.
  - intros H Hm. apply bind_Ok in H as (stack1 & st1 & Hstep & Hrest).
    eapply IH; [exact Hrest|]. eapply patch_target_names; eauto.
Qed.

(** A scope that has been set up leaves a mock in
    [snowflake.connector.connect], which is what the entry guard looks
    at. *)
Lemma patch_setup_marks_connect (extra_targets : targets) (opts : fakesnow_options)
    (st st' : interp) (s : session) :
  patch_setup import_module extra_targets opts st = (Ok s, st') →
  ∃ oid se, lookup_var st' "snowflake.connector" "connect" = Some (PyMagicMock oid se).
Proof.
  intros Hsetup.
  destruct (patch_setup_Ok _ _ _ _ _ Hsetup)
    as (c & wp & fwp & Hc & Hnomock & _ & _ & _ & Hpass).
  change (std_targets ++ targets_list extra_targets)%list
    with ("snowflake.connector.connect"
            :: ("snowflake.connector.pandas_tools.write_pandas"
                  :: targets_list extra_targets)) in Hpass.
  rewrite patch_targets_cons in Hpass.
  apply bind_Ok in Hpass as (stack1 & st1 & Hstep & Hrest).
  unfold lookup_var in Hc.
  destruct (sys_modules st !! "snowflake.connector") as [id0|] eqn:Hid0; [|discriminate].
  cbn in Hc.
  destruct (patch_target_Ok _ _ _ _ _ _ Hstep)
    as (id & d & st2 & fn & Hg & Hd & Hfn & _ & Hcase).
  change (module_name_of "snowflake.connector.connect") with "snowflake.connector" in *.
  change (fn_name_of "snowflake.connector.connect") with "connect" in *.
  rewrite (get_or_import_loaded _ _ id0) in Hg by exact Hid0.
  injection Hg as <- <-. cbn [FakeSnow_new snd heap sys_modules] in *.
  unfold obj_var in Hc. rewrite Hd in Hc. cbn in Hc. rewrite Hc in Hfn. injection Hfn as <-.
  destruct Hcase as [(Hm & _)|(_ & _ & fake & _ & _ & _ & ->)]; [congruence|].
  assert (Hmock1 : is_mock_var (heap (entered id0 "snowflake.connector.connect" fake d
                     (snd (FakeSnow_new opts st)))) id0 "connect").
  { unfold is_mock_var. rewrite obj_var_entered by exact Hd.
    change (fn_name_of "snowflake.connector.connect") with "connect".
    rewrite decide_True by done. eauto. }
  destruct (patch_targets_keeps_mock _ _ _ _ _ _ _ _ Hrest Hmock1) as (oid & se & Hfinal).
  exists oid, se. unfold lookup_var.
  rewrite (patch_targets_names _ _ _ _ _ _ "snowflake.connector" id0 Hrest) by exact Hid0.
  exact Hfinal.
Qed.

(** X16.  Opening a scope inside the block of another one, before the block
    rebinds anything, raises "already patched" and changes nothing. *)
Lemma nested_patch_raises {A} (outer inner : targets) (opts opts' : fakesnow_options)
    (body : M A) (st st' : interp) (s : session) :
  patch_setup import_module outer opts st = (Ok s, st') →
  with_patch import_module inner opts' body st'
    = (Raise (AssertionError AlreadyPatched), st').
Proof.
  intros Hsetup. unfold with_patch. apply bind_Raise.
  destruct (patch_setup_marks_connect _ _ _ _ _ Hsetup) as (oid & se & Hc).
  eapply entry_guard_raises. exact Hc.
Qed.

(** X15.  With a block that does nothing, the whole namespace comes back:
    every variable that could be read by name when the scope opened reads the
    same afterwards, replaced or not. *)
Lemma patch_pass_round_trip (extra_targets : targets) (opts : fakesnow_options)
    (st st' : interp) :
  with_patch import_module extra_targets opts (ret tt) st = (Ok tt, st') →
  ∀ m n v, lookup_var st m n = Some v → lookup_var st' m n = Some v.
Proof.
  unfold with_patch, bind.
  destruct (patch_setup import_module extra_targets opts st) as [[s|e] st1] eqn:Hsetup;
    [|discriminate].
  cbn [ret]. rewrite patch_teardown_run. intros [= <-] m n v Hpre.
  destruct (patch_setup_Ok _ _ _ _ _ Hsetup) as (c & wp & fwp & _ & _ & _ & _ & _ & Hpass).
  unfold lookup_var in *. cbn [sys_modules heap].
  destruct (sys_modules st !! m) as [id|] eqn:Hid; [|discriminate]. cbn in Hpre.
  rewrite (patch_targets_names _ _ _ _ _ _ m id Hpass) by exact Hid. cbn.
  assert (Hr : restorable (heap st) (heap st1) (stack s)).
  { eapply patch_targets_restorable; [exact Hpass|]. apply restorable_init. }
  assert (Hsm : stack_mocked (heap st1) (stack s)).
  { eapply patch_targets_once; [exact Hpass|]. split; [|constructor].
    intros id' n' Hin. cbn in Hin. by apply elem_of_nil in Hin. }
  pose proof (Hr id n v Hpre) as Hv.
  assert (Hd2 : is_Some (heap st1 !! id)).
  { destruct (oldest_original (stack s) id n) as [o|] eqn:Ho.
    - destruct (Hsm id n) as (oid & se & Hm).
      { apply oldest_original_patched. rewrite Ho. eauto. }
      unfold obj_var in Hm. destruct (heap st1 !! id); [eauto|discriminate].
    - unfold obj_var in Hv. destruct (heap st1 !! id); [eauto|discriminate]. }
  destruct Hd2 as [d2 Hd2].
  rewrite (close_heap_lookup (stack s) _ id n d2 Hd2).
  destruct (oldest_original (stack s) id n) as [o|]; [congruence|].
  unfold obj_var in Hv. rewrite Hd2 in Hv. exact Hv.
Qed.

End PatchFacts.

(** ** The example importer and the example runs *)

Lemma disk_import_frame (disk : gmap string (list import_stmt)) :
  import_frame (disk_import disk).
Proof.
  intros st name u st' Hfresh Himp id n v Hv. unfold disk_import in Himp.
  destruct (disk !! name) as [src|]; [|discriminate].
  destruct (foldl (exec_stmt st) (Some ∅) src) as [d0|]; [|discriminate].
  injection Himp as _ <-. unfold obj_var in *. cbn [heap].
  rewrite lookup_insert_ne; [exact Hv|].
  intros <-. pose proof (is_fresh (dom (heap st))) as Hnew.
  rewrite not_elem_of_dom in Hnew. rewrite Hnew in Hv. discriminate.
Qed.

Lemma disk_import_names (disk : gmap string (list import_stmt)) :
  import_keeps_names (disk_import disk).
Proof.
  intros st name u st' Hfresh Himp m id Hm. unfold disk_import in Himp.
  destruct (disk !! name) as [src|]; [|discriminate].
  destruct (foldl (exec_stmt st) (Some ∅) src) as [d0|]; [|discriminate].
  injection Himp as _ <-. cbn [sys_modules].
  rewrite lookup_insert_ne; [exact Hm|]. intros ->. congruence.
Qed.

(** An import from the disk that raises has changed nothing. *)
Lemma disk_import_failed (disk : gmap string (list import_stmt)) :
  failed_import_frame (disk_import disk).
Proof.
  intros st name e st' Hfresh Himp. unfold disk_import in Himp.
  destruct (disk !! name) as [src|]; [|injection Himp as _ <-; done].
  destruct (foldl (exec_stmt st) (Some ∅) src) as [d0|]; [discriminate|].
  injection Himp as _ <-. done.
Qed.

(** [pkg_import] never succeeds, and its failure keeps what was bound. *)
Lemma pkg_import_raises (name : string) (st : interp) (u : unit) (st' : interp) :
  pkg_import name st ≠ (Ok u, st').
Proof.
  unfold pkg_import. case_decide; [|discriminate].
  destruct (sys_modules st !! "pkg"); discriminate.
Qed.

Lemma pkg_import_frame : import_frame pkg_import.
Proof. intros st name u st' _ Himp. by apply pkg_import_raises in Himp. Qed.

Lemma pkg_import_names : import_keeps_names pkg_import.
Proof. intros st name u st' _ Himp. by apply pkg_import_raises in Himp. Qed.

Lemma pkg_import_failed : failed_import_frame pkg_import.
Proof.
  intros st name e st' _ Himp. unfold pkg_import in Himp.
  case_decide; [|injection Himp as _ <-; done].
  destruct (sys_modules st !! "pkg") as [id0|] eqn:Hpkg; [injection Himp as _ <-; done|].
  injection Himp as _ <-. cbn [heap sys_modules]. split.
  - intros id n v Hv. unfold obj_var in *.
    rewrite lookup_insert_ne; [exact Hv|].
    intros <-. pose proof (is_fresh (dom (heap st))) as Hnew.
    rewrite not_elem_of_dom in Hnew. rewrite Hnew in Hv. discriminate.
  - intros m id Hm. rewrite lookup_insert_ne; [exact Hm|]. congruence.
Qed.

(** The two modules of the example bind the same function under two names;
    opening the scope on one name and loading the other module gives the
    fake under both names, and closing the scope puts [app.connect] back. *)
Example lazy_import_sees_fake :
  patch_setup example_import (ManyTargets ["app.connect"; "lazy.connect"])
    default_options example_interp
  = (Ok {| fs := example_fs;
           stack := entry 13 "app.connect" (PyFunc 100) (PyFunc 1) :: example_std_stack |},
     entered 13 "app.connect" (PyFunc 100) example_app_dict example_lazy_loaded).
Proof. vm_compute. reflexivity. Qed.

Example with_patch_example :
  with_patch example_import (ManyTargets ["app.connect"; "lazy.connect"])
    default_options (ret tt) example_interp
  = (Ok tt, example_closed).
Proof. vm_compute. reflexivity. Qed.


(** C2.  With the extra target [app.missing], which the loaded module [app]
    does not define, the setup raises at the third target, after the two
    standard targets were replaced.  The exception leaves the [with]
    statement with both standard variables still bound to their mocks and
    the engine's connection open, and the next [patch] is refused. *)
Theorem setup_failure_leaves_mocks :
  patch_setup example_import (OneTarget "app.missing") default_options example_interp
    = (Raise (AssertionError (NoModuleVar "app.missing")), example_patched) ∧
  with_patch example_import (OneTarget "app.missing") default_options (ret tt) example_interp
    = (Raise (AssertionError (NoModuleVar "app.missing")), example_patched) ∧
  lookup_var example_interp "snowflake.connector" "connect" = Some (PyFunc 1) ∧
  lookup_var example_patched "snowflake.connector" "connect"
    = Some (PyMagicMock 102 (PyFunc 100)) ∧
  lookup_var example_patched "snowflake.connector.pandas_tools" "write_pandas"
    = Some (PyMagicMock 103 (PyFunc 3)) ∧
  open_duck_conns example_patched = {[ 101 ]} ∧
  with_patch example_import (ManyTargets []) default_options (ret tt) example_patched
    = (Raise (AssertionError AlreadyPatched), example_patched).
Proof. repeat split; vm_compute; reflexivity. Qed.

Lemma repatch_raises_witness :
  patch_setup example_import (ManyTargets []) default_options example_patched
    = (Raise (AssertionError AlreadyPatched), example_patched) ∧
  with_patch example_import (ManyTargets []) default_options (ret tt) example_patched
    = (Raise (AssertionError AlreadyPatched), example_patched).
Proof.
  apply (repatch_raises example_import (ManyTargets []) default_options (ret tt)
           example_patched (PyMagicMock 102 (PyFunc 100))); reflexivity.
Defined.

Lemma mock_target_skipped_witness :
  patch_target example_import example_fake_fns example_std_stack "lazy.connect" example_patched
    = (Ok example_std_stack, example_lazy_loaded) ∧
  NoDup (patched (entry 13 "app.connect" (PyFunc 100) (PyFunc 1) :: example_std_stack)).
Proof.
  split.
  - apply (proj1 (mock_target_skipped example_import (disk_import_frame example_disk))
             example_fake_fns example_std_stack "lazy.connect" example_patched
             example_lazy_loaded 14 (PyMagicMock 102 (PyFunc 100)));
      vm_compute; reflexivity.
  - apply (proj2 (mock_target_skipped example_import (disk_import_frame example_disk))
             (ManyTargets ["app.connect"; "lazy.connect"]) default_options example_interp
             _ {| fs := example_fs;
                  stack := entry 13 "app.connect" (PyFunc 100) (PyFunc 1)
                             :: example_std_stack |}
             lazy_import_sees_fake).
Defined.

(** C7 as stated fails on a target whose value is a mock: [lazy.connect]
    resolves to the mock installed for [snowflake.connector.connect], which
    is not a key of [fake_fns], and the pass goes on without an error. *)
Lemma mock_extra_target_accepted :
  patch_targets example_import example_fake_fns [] std_targets
      (FakeSnow_new default_options example_interp).2
    = (Ok example_std_stack, example_patched) ∧
  get_or_import example_import (module_name_of "lazy.connect") example_patched
    = (Ok 14, example_lazy_loaded) ∧
  obj_var (heap example_lazy_loaded) 14 (fn_name_of "lazy.connect")
    = Some (PyMagicMock 102 (PyFunc 100)) ∧
  pydict_get example_fake_fns (PyMagicMock 102 (PyFunc 100)) = None ∧
  pydict_keys example_fake_fns = [PyFunc 1; PyFunc 2] ∧
  ¬ py_equal (PyFunc 1) (PyMagicMock 102 (PyFunc 100)) ∧
  ¬ py_equal (PyFunc 2) (PyMagicMock 102 (PyFunc 100)) ∧
  patch_target example_import example_fake_fns example_std_stack "lazy.connect" example_patched
    = (Ok example_std_stack, example_lazy_loaded) ∧
  patch_setup example_import (OneTarget "lazy.connect") default_options example_interp
    = (Ok {| fs := example_fs; stack := example_std_stack |}, example_lazy_loaded).
Proof. repeat split; try discriminate; vm_compute; reflexivity. Qed.

Lemma unmapped_target_raises_witness :
  ∃ a,
    patch_target example_import example_fake_fns example_std_stack "app.helper" example_patched
      = (Raise (AssertionError a), example_patched) ∧
    patch_targets example_import example_fake_fns [] (std_targets ++ ["app.helper"; "app.connect"])
        (FakeSnow_new default_options example_interp).2
      = (Raise (AssertionError a), example_patched).
Proof.
  apply (proj1 (unmapped_target_raises example_import)
           example_fake_fns std_targets ["app.connect"] "app.helper" [] example_std_stack
           (FakeSnow_new default_options example_interp).2 example_patched example_patched
           13 (PyFunc 7));
    try (vm_compute; reflexivity).
  repeat constructor; discriminate.
Defined.

(** * Properties of [server] *)

Local Open Scope list_scope.
Local Open Scope nat_scope.

Section ServerFacts.

Variable os_assigned_port : Z.
Variable thread_is_alive : nat -> bool.
Variable server_started : nat -> bool.

Abbreviation find_port' := (find_port os_assigned_port).
Abbreviation wait_started' := (wait_started thread_is_alive server_started).
Abbreviation thread_join' := (thread_join thread_is_alive).
Abbreviation server_setup' := (server_setup os_assigned_port thread_is_alive server_started).
Abbreviation server_teardown' := (server_teardown thread_is_alive).
Abbreviation with_server' :=
  (with_server os_assigned_port thread_is_alive server_started).

(** ** The port *)

Lemma find_port_probe (port : option Z) (w : world) :
  not_port port = true →
  find_port' port w =
    (os_assigned_port,
     {| clock := clock w; trace := trace w ++ probe_events os_assigned_port;
        should_exit := should_exit w |}).
Proof.
  intros Hnot. unfold find_port, probe_port, emit. rewrite Hnot. cbn.
  repeat rewrite <- app_assoc. reflexivity.
Qed.

Lemma find_port_given (p : Z) (w : world) :
  p ≠ 0%Z → find_port' (Some p) w = (p, w).
Proof.
  intros Hp. unfold find_port, not_port.
  destruct (Z.eqb_spec p 0); [contradiction|reflexivity].
Qed.

(** ** The polling loop *)

(** The loop only sleeps: it leaves [should_exit] alone and adds [Sleep]
    events. *)
Lemma wait_started_trace (fuel : nat) (w w' : world) :
  wait_started' fuel w = Some w' →
  should_exit w' = should_exit w ∧
  ∃ n, trace w' = trace w ++ replicate n Sleep.
Proof.
  revert w. induction fuel as [|fuel IH]; intros w; cbn [wait_started]; [discriminate|].
  unfold is_alive, started.
  destruct (thread_is_alive (clock w)).
  - destruct (server_started (clock (tick w))); cbn [negb].
    + intros [= <-]. split; [reflexivity|]. exists 0. cbn. by rewrite app_nil_r.
    + intros H. apply IH in H as [Hse [n Hn]]. split; [exact Hse|].
      exists (S n). rewrite Hn. cbn. rewrite <- app_assoc. reflexivity.
  - intros [= <-]. split; [reflexivity|]. exists 0. cbn. by rewrite app_nil_r.
Qed.

(** A thread that dies without having started ends the loop. *)
Lemma wait_started_terminates (T : nat) :
  (∀ t, T ≤ t → thread_is_alive t = false) →
  ∀ n w, T - clock w ≤ n →
    ∃ w', ∀ fuel, n < fuel → wait_started' fuel w = Some w'.
Proof.
  intros Hdead. induction n as [n IH] using lt_wf_ind. intros w Hn.
  destruct (thread_is_alive (clock w)) eqn:Halive.
  - assert (Hlt : clock w < T).
    { destruct (decide (clock w < T)) as [|Hge]; [done|].
      rewrite Hdead in Halive by lia. discriminate. }
    destruct (server_started (clock (tick w))) eqn:Hst.
    + exists (tick (tick w)). intros [|fuel] Hf; [lia|].
      cbn [wait_started]. unfold is_alive, started. rewrite Halive, Hst. reflexivity.
    + destruct (IH (n - 1) ltac:(lia) (sleep (tick (tick w)))) as [w' Hw'].
      { cbn. lia. }
      exists w'. intros [|fuel] Hf; [lia|].
      cbn [wait_started]. unfold is_alive, started. rewrite Halive, Hst. cbn [negb].
      apply Hw'. lia.
  - exists (tick w). intros [|fuel] Hf; [lia|].
    cbn [wait_started]. unfold is_alive. rewrite Halive. reflexivity.
Qed.

(** ** The setup, case by case *)

Lemma server_setup_Ok (fuel : nat) (port : option Z)
    (session_parameters : option (gmap string pyval)) (w w' : world) (params : conn_params) :
  server_setup' fuel port session_parameters w = Some (Ok params, w') →
  (find_port' port w).1 ≠ 0%Z ∧
  params = yielded (find_port' port w).1 session_parameters ∧
  should_exit w' = should_exit w ∧
  ∃ n, trace w' =
         trace (find_port' port w).2 ++ ThreadStart (find_port' port w).1 :: replicate n Sleep.
Proof.
  unfold server_setup. destruct (find_port' port w) as [p w1] eqn:Hfp. cbn [fst snd].
  destruct (Z.eqb_spec p 0) as [|Hp]; [discriminate|].
  destruct (wait_started' fuel (emit (ThreadStart p) w1)) as [w2|] eqn:Hwait; [|discriminate].
  unfold started. destruct (server_started (clock w2)); [|discriminate]. cbn [negb].
  intros [= <- <-]. apply wait_started_trace in Hwait as [Hse [n Hn]].
  split; [exact Hp|]. split; [reflexivity|]. split.
  - cbn. rewrite Hse. cbn.
    unfold find_port, probe_port in Hfp. destruct (not_port port); injection Hfp as <- <-;
      reflexivity.
  - exists n. cbn. rewrite Hn. cbn. rewrite <- app_assoc. reflexivity.
Qed.

(** Whatever the outcome, the thread is never started on port 0. *)
Lemma server_setup_starts (fuel : nat) (port : option Z)
    (session_parameters : option (gmap string pyval)) (w w' : world)
    (r : result conn_params) :
  server_setup' fuel port session_parameters w = Some (r, w') →
  ∀ p, ThreadStart p ∈ trace w' → ThreadStart p ∈ trace w ∨ p ≠ 0%Z.
Proof.
  unfold server_setup. destruct (find_port' port w) as [p0 w1] eqn:Hfp.
  assert (Hw1 : ∀ p, ThreadStart p ∈ trace w1 → ThreadStart p ∈ trace w).
  { unfold find_port, probe_port in Hfp. destruct (not_port port); injection Hfp as <- <-.
    - intros p. cbn. rewrite !elem_of_app, !list_elem_of_singleton.
      intros [[[[?|?]|?]|?]|?]; try done.
    - done. }
  destruct (Z.eqb_spec p0 0) as [|Hp].
  - intros [= <- <-] p Hin. left. by apply Hw1.
  - destruct (wait_started' fuel (emit (ThreadStart p0) w1)) as [w2|] eqn:Hwait; [|discriminate].
    apply wait_started_trace in Hwait as [_ [n Hn]].
    assert (Hw2 : ∀ p, ThreadStart p ∈ trace w2 → ThreadStart p ∈ trace w ∨ p ≠ 0%Z).
    { intros p. rewrite Hn. cbn. rewrite !elem_of_app, list_elem_of_singleton.
      intros [[Hin|[= ->]]|Hin]; [left; by apply Hw1|by right|].
      apply elem_of_replicate in Hin as [? _]. discriminate. }
    unfold started. destruct (server_started (clock w2)); cbn [negb];
      intros [= <- <-]; exact Hw2.
Qed.

(** ** Startup failure *)

(** C4.  When [server.started] is never true and the thread is dead from
    some clock value on, the polling loop ends and [server] raises
    [RuntimeError("Failed to start server")]: with enough fuel the setup
    returns that exception, and the [with] statement returns it whatever its
    body is, since the body is never run.  The thread is started only when
    the port passes [assert port], which is the third hypothesis. *)
Theorem startup_failure_raises (port : option Z)
    (session_parameters : option (gmap string pyval)) (w : world) (T : nat) :
  (∀ t, server_started t = false) →
  (∀ t, T ≤ t → thread_is_alive t = false) →
  (not_port port = true → os_assigned_port ≠ 0%Z) →
  ∃ fuel0 w', ∀ fuel, fuel0 ≤ fuel →
    server_setup' fuel port session_parameters w
      = Some (Raise (RuntimeError "Failed to start server"), w') ∧
    ∀ A (body : conn_params → world → option (result A * world)),
      with_server' fuel port session_parameters body w
        = Some (Raise (RuntimeError "Failed to start server"), w').
Proof.
  intros Hnever Hdead Hport.
  destruct (find_port' port w) as [p w1] eqn:Hfp.
  assert (Hp : p ≠ 0%Z).
  { unfold find_port, probe_port in Hfp. destruct (not_port port) eqn:Hnot.
    - injection Hfp as <- _. by apply Hport.
    - injection Hfp as <- _. destruct port as [p0|]; [|discriminate].
      cbn in Hnot. by apply Z.eqb_neq. }
  destruct (wait_started_terminates T Hdead (T - clock (emit (ThreadStart p) w1))
              (emit (ThreadStart p) w1) (le_n _)) as [w2 Hw2].
  exists (S (T - clock (emit (ThreadStart p) w1))), (tick w2). intros fuel Hfuel.
  assert (Hsetup : server_setup' fuel port session_parameters w
                   = Some (Raise (RuntimeError "Failed to start server"), tick w2)).
  { unfold server_setup. rewrite Hfp.
    destruct (Z.eqb_spec p 0) as [|_]; [contradiction|].
    rewrite (Hw2 fuel) by lia. unfold started. rewrite Hnever. reflexivity. }
  split; [exact Hsetup|].
  intros A body. unfold with_server. rewrite Hsetup. reflexivity.
Qed.

(** ** Shutdown *)

(** [thread.join()] returns at the first clock value at which the thread
    is not alive, and not before. *)
Lemma thread_join_spec (fuel : nat) (w : world) :
  match thread_join' fuel w with
  | Some w' =>
      ∃ k, k < fuel ∧
           clock w' = clock w + k ∧
           trace w' = trace w ++ [ThreadJoined] ∧
           should_exit w' = should_exit w ∧
           thread_is_alive (clock w') = false ∧
           ∀ j, j < k → thread_is_alive (clock w + j) = true
  | None => ∀ j, j < fuel → thread_is_alive (clock w + j) = true
  end.
Proof.
  revert w. induction fuel as [|fuel IH]; intros w; cbn [thread_join].
  - intros j Hj. lia.
  - destruct (thread_is_alive (clock w)) eqn:Halive.
    + specialize (IH (tick w)). destruct (thread_join' fuel (tick w)) as [w'|].
      * destruct IH as (k & Hk & Hclock & Htrace & Hse & Hdead & Hbefore).
        cbn [tick clock trace should_exit] in Hclock, Htrace, Hse, Hbefore.
        exists (S k). split; [lia|]. split; [lia|].
        split; [exact Htrace|]. split; [exact Hse|]. split; [exact Hdead|].
        intros [|j] Hj; [by rewrite Nat.add_0_r|].
        replace (clock w + S j) with (S (clock w) + j) by lia. apply Hbefore. lia.
      * cbn [tick clock] in IH.
        intros [|j] Hj; [by rewrite Nat.add_0_r|].
        replace (clock w + S j) with (S (clock w) + j) by lia. apply IH. lia.
    + exists 0. cbn [emit clock trace should_exit]. rewrite Nat.add_0_r.
      split; [lia|]. split; [reflexivity|]. split; [reflexivity|].
      split; [reflexivity|]. split; [exact Halive|]. intros j Hj. lia.
Qed.

(** C5.  When [server] has yielded and the block has ended, by returning or
    by raising, the [with] statement gives the block's own outcome, and the
    last two things the manager did are setting [server.should_exit] and
    coming back from [thread.join()], in this order; at that point the
    thread is not alive, and it was alive at every clock value from the end
    of the block until then.  When the statement has not returned within the
    fuel, the thread has been alive all along. *)
Theorem shutdown_signals_then_joins {A} (fuel : nat) (port : option Z)
    (session_parameters : option (gmap string pyval))
    (body : conn_params → world → option (result A * world))
    (w w1 w2 : world) (params : conn_params) (r : result A) :
  server_setup' fuel port session_parameters w = Some (Ok params, w1) →
  body params w1 = Some (r, w2) →
  match with_server' fuel port session_parameters body w with
  | Some (r', w3) =>
      r' = r ∧
      trace w3 = trace w2 ++ [SetShouldExit; ThreadJoined] ∧
      should_exit w3 = true ∧
      thread_is_alive (clock w3) = false ∧
      ∃ k, clock w3 = clock w2 + k ∧ ∀ j, j < k → thread_is_alive (clock w2 + j) = true
  | None => ∀ j, j < fuel → thread_is_alive (clock w2 + j) = true
  end.
Proof.
  intros Hsetup Hbody. unfold with_server. rewrite Hsetup, Hbody.
  unfold server_teardown.
  set (ws := emit SetShouldExit _).
  pose proof (thread_join_spec fuel ws) as Hjoin.
  destruct (thread_join' fuel ws) as [w3|].
  - destruct Hjoin as (k & _ & Hclock & Htrace & Hse & Hdead & Hbefore).
    split; [reflexivity|]. split.
    { rewrite Htrace. unfold ws. cbn. rewrite <- app_assoc. reflexivity. }
    split; [rewrite Hse; reflexivity|]. split; [exact Hdead|].
    exists k. split; [exact Hclock|exact Hbefore].
  - exact Hjoin.
Qed.

(** ** The yielded parameters *)

(** C8.  The yielded [session_parameters] has every entry that the caller
    supplied, with the caller's value; it has the default entry that turns
    telemetry off when the caller did not supply that key; and it has no
    other entry. *)
Theorem session_parameters_override (fuel : nat) (port : option Z)
    (overrides : option (gmap string pyval)) (w w' : world) (params : conn_params) :
  server_setup' fuel port overrides w = Some (Ok params, w') →
  let supplied := or_empty overrides in
  (∀ k v, supplied !! k = Some v → session_parameters params !! k = Some v) ∧
  (supplied !! "CLIENT_OUT_OF_BAND_TELEMETRY_ENABLED" = None →
   session_parameters params !! "CLIENT_OUT_OF_BAND_TELEMETRY_ENABLED"
     = Some (VBool false)) ∧
  (∀ k v, session_parameters params !! k = Some v →
          supplied !! k = Some v ∨
          (k = "CLIENT_OUT_OF_BAND_TELEMETRY_ENABLED" ∧ v = VBool false)).
Proof.
  intros Hsetup supplied.
  apply server_setup_Ok in Hsetup as (_ & -> & _).
  cbn [yielded session_parameters]. unfold dict_or. fold supplied.
  repeat split.
  - intros k v Hk. apply lookup_union_Some_l. exact Hk.
  - intros Hnone. rewrite lookup_union_r by exact Hnone. apply lookup_singleton_eq.
  - intros k v Hk. apply lookup_union_Some_raw in Hk as [Hk|[_ Hk]]; [by left|right].
    apply lookup_singleton_Some in Hk as [<- <-]. done.
Qed.



(** C10.  [port=0] behaves as [port=None]: the setup and the [with]
    statement are the same computations.  A yielded port is then the one the
    operating system assigned and is never 0, and the server thread is never
    started on port 0. *)
Theorem port_zero_is_no_port (fuel : nat) (overrides : option (gmap string pyval))
    (w : world) :
  server_setup' fuel (Some 0%Z) overrides w = server_setup' fuel None overrides w ∧
  (∀ A (body : conn_params → world → option (result A * world)),
     with_server' fuel (Some 0%Z) overrides body w
       = with_server' fuel None overrides body w) ∧
  (∀ r w', server_setup' fuel (Some 0%Z) overrides w = Some (r, w') →
     (∀ params, r = Ok params →
                port params = os_assigned_port ∧ port params ≠ 0%Z) ∧
     (∀ p, ThreadStart p ∈ trace w' → ThreadStart p ∈ trace w ∨ p ≠ 0%Z)).
Proof.
  split; [reflexivity|]. split; [reflexivity|].
  intros r w' Hsetup. split.
  - intros params ->. apply server_setup_Ok in Hsetup as (Hp & -> & _).
    rewrite find_port_probe in Hp by reflexivity.
    rewrite find_port_probe by reflexivity. cbn [fst yielded port] in *. done.
  - eapply server_setup_starts. exact Hsetup.
Qed.

End ServerFacts.


(** ** The example threads *)

Example server_yields_example :
  server_setup example_port example_alive example_started 10 None None example_world
    = Some (Ok (yielded example_port None), example_ready).
Proof. vm_compute. reflexivity. Qed.

Lemma startup_failure_raises_witness :
  ∃ fuel0 w', ∀ fuel, fuel0 ≤ fuel →
    server_setup example_port crashing_alive never_started fuel None None example_world
      = Some (Raise (RuntimeError "Failed to start server"), w') ∧
    ∀ A (body : conn_params → world → option (result A * world)),
      with_server example_port crashing_alive never_started fuel None None body example_world
        = Some (Raise (RuntimeError "Failed to start server"), w').
Proof.
  apply (startup_failure_raises example_port crashing_alive never_started None None
           example_world 5).
  - reflexivity.
  - intros t Ht. apply Nat.ltb_ge. exact Ht.
  - discriminate.
Defined.

Lemma shutdown_signals_then_joins_witness :
  match with_server example_port example_alive example_started 30 None None
          example_body example_world with
  | Some (r', w3) =>
      r' = Raise (RuntimeError "boom") ∧
      trace w3 = trace (tick example_ready) ++ [SetShouldExit; ThreadJoined] ∧
      should_exit w3 = true ∧
      example_alive (clock w3) = false ∧
      ∃ k, clock w3 = clock (tick example_ready) + k ∧
           ∀ j, j < k → example_alive (clock (tick example_ready) + j) = true
  | None => ∀ j, j < 30 → example_alive (clock (tick example_ready) + j) = true
  end.
Proof.
  apply (shutdown_signals_then_joins example_port example_alive example_started 30 None None
           example_body example_world example_ready (tick example_ready)
           (yielded example_port None) (Raise (RuntimeError "boom")));
    vm_compute; reflexivity.
Defined.

Lemma session_parameters_override_witness :
  server_setup example_port example_alive example_started 10 None (Some example_overrides)
      example_world
    = Some (Ok (yielded example_port (Some example_overrides)), example_ready) ∧
  session_parameters (yielded example_port (Some example_overrides))
    !! "CLIENT_OUT_OF_BAND_TELEMETRY_ENABLED" = Some (VBool true) ∧
  session_parameters (yielded example_port (Some example_overrides)) !! "TIMEZONE"
    = Some (VStr "UTC").
Proof.
  assert (Hsetup :
    server_setup example_port example_alive example_started 10 None (Some example_overrides)
      example_world
    = Some (Ok (yielded example_port (Some example_overrides)), example_ready)).
  { vm_compute. reflexivity. }
  split; [exact Hsetup|].
  split;
    apply (proj1 (session_parameters_override example_port example_alive example_started
                    10 None (Some example_overrides) example_world example_ready
                    (yielded example_port (Some example_overrides)) Hsetup));
    vm_compute; reflexivity.
Defined.



Lemma port_zero_is_no_port_witness :
  port (yielded example_port None) = example_port ∧
  port (yielded example_port None) ≠ 0%Z.
Proof.
  apply (proj1 (proj2 (proj2 (port_zero_is_no_port example_port example_alive example_started
                                10 None example_world))
                  (Ok (yielded example_port None)) example_ready
                  ltac:(vm_compute; reflexivity))
           (yielded example_port None) eq_refl).
Defined.

(** * More properties of [patch] *)

Section PatchScope.

Variable import_module : string -> M unit.

Abbreviation get_or_import' := (get_or_import import_module).
Abbreviation patch_target' := (patch_target import_module).
Abbreviation patch_targets' := (patch_targets import_module).

(** ** Leaving a scope *)

(** The [with] statement of a scope that was set up: the block's outcome
    after the [finally] block. *)
Lemma with_patch_run {A} (extra_targets : targets) (opts : fakesnow_options)
    (body : M A) (st st1 st2 : interp) (s : session) (r : result A) :
  patch_setup import_module extra_targets opts st = (Ok s, st1) →
  body st1 = (r, st2) →
  with_patch import_module extra_targets opts body st =
    (r, {| sys_modules := sys_modules st2;
           heap := close_heap (stack s) (heap st2);
           next_oid := next_oid st2;
           open_duck_conns := open_duck_conns st2 ∖ {[ duck_conn (fs s) ]} |}).
Proof.
  intros Hsetup Hbody. unfold with_patch. rewrite (bind_run _ _ _ _ _ Hsetup).
  rewrite Hbody, patch_teardown_run. reflexivity.
Qed.

(** The pass leaves the connections of the engines alone when it does not
    import, and the engine made by the setup is open from then on. *)
Lemma FakeSnow_new_open (opts : fakesnow_options) (st st1 : interp) (f : FakeSnow) :
  FakeSnow_new opts st = (Ok f, st1) →
  duck_conn f = S (next_oid st) ∧ fs_connect f = PyFunc (next_oid st) ∧
  open_duck_conns st1 = {[ duck_conn f ]} ∪ open_duck_conns st.
Proof. unfold FakeSnow_new. intros [= <- <-]. done. Qed.

(** X2.  The engine's connection is released on every exit of a scope that
    was set up, whether the block returns or raises: the [with] statement
    gives the block's own outcome, and the connections open afterwards are
    the ones open at the end of the block without the engine's. *)
Theorem scope_exit_closes_engine {A} (extra_targets : targets) (opts : fakesnow_options)
    (body : M A) (st st1 st2 : interp) (s : session) (r : result A) :
  patch_setup import_module extra_targets opts st = (Ok s, st1) →
  body st1 = (r, st2) →
  ∃ st', with_patch import_module extra_targets opts body st = (r, st') ∧
         (open_duck_conns st' = open_duck_conns st2 ∖ {[ duck_conn (fs s) ]}) ∧
         (duck_conn (fs s) ∉ open_duck_conns st') ∧
         sys_modules st' = sys_modules st2.
Proof.
  intros Hsetup Hbody. eexists. split; [eapply with_patch_run; eauto|].
  cbn [open_duck_conns sys_modules]. split; [reflexivity|]. split; [|reflexivity].
  rewrite elem_of_difference, elem_of_singleton. tauto.
Qed.

(** ** Failing iterations *)

(** An iteration that raises ends the pass there, with its exception and in
    its state; the targets after it are not looked at. *)
Lemma patch_targets_stops (fake_fns : pydict) (ims1 ims2 : list string) (im : string)
    (stack0 stack : ExitStack) (st0 st st1 : interp) (e : exn) :
  patch_targets' fake_fns stack0 ims1 st0 = (Ok stack, st) →
  patch_target' fake_fns stack im st = (Raise e, st1) →
  patch_targets' fake_fns stack0 (ims1 ++ im :: ims2) st0 = (Raise e, st1).
Proof.
  intros Hpre Hstep. rewrite patch_targets_app. rewrite (bind_run _ _ _ _ _ Hpre).
  cbn [patch_targets]. apply bind_Raise. exact Hstep.
Qed.

(** X4.  A target whose module does not define the variable, or binds it to
    a falsy value, makes the iteration and the whole pass raise
    [AssertionError("No module var ...")], in the state left by resolving
    the module: no patcher is entered for it and the later targets are not
    looked at. *)
Theorem missing_var_raises (fake_fns : pydict) (ims1 ims2 : list string) (im : string)
    (stack0 stack : ExitStack) (st0 st st1 : interp) (id : nat) :
  patch_targets' fake_fns stack0 ims1 st0 = (Ok stack, st) →
  get_or_import' (module_name_of im) st = (Ok id, st1) →
  (obj_var (heap st1) id (fn_name_of im) = None ∨
   (∃ fn, obj_var (heap st1) id (fn_name_of im) = Some fn ∧ truthy fn = false)) →
  patch_target' fake_fns stack im st = (Raise (AssertionError (NoModuleVar im)), st1) ∧
  patch_targets' fake_fns stack0 (ims1 ++ im :: ims2) st0
    = (Raise (AssertionError (NoModuleVar im)), st1).
Proof.
  intros Hpre Hg Hvar.
  assert (Hstep : patch_target' fake_fns stack im st
                  = (Raise (AssertionError (NoModuleVar im)), st1)).
  { unfold patch_target. rewrite (bind_run _ _ _ _ _ Hg).
    unfold bind at 1. unfold dict_get.
    destruct Hvar as [Hnone|(fn & Hsome & Hfalse)].
    - rewrite Hnone. reflexivity.
    - rewrite Hsome. unfold bind, py_assert. rewrite Hfalse. reflexivity. }
  split; [exact Hstep|]. eapply patch_targets_stops; eauto.
Qed.

(** X5.  A target whose value is truthy, is not a mock and cannot be hashed
    makes the iteration and the whole pass raise the [TypeError] of
    [fake_fns.get(fn)], not an [AssertionError]. *)
Theorem unhashable_var_raises (fake_fns : pydict) (ims1 ims2 : list string) (im : string)
    (stack0 stack : ExitStack) (st0 st st1 : interp) (id : nat) (fn : pyobj) :
  patch_targets' fake_fns stack0 ims1 st0 = (Ok stack, st) →
  get_or_import' (module_name_of im) st = (Ok id, st1) →
  obj_var (heap st1) id (fn_name_of im) = Some fn →
  truthy fn = true →
  isinstance_MagicMock fn = false →
  hashable fn = false →
  patch_target' fake_fns stack im st = (Raise (TypeError "unhashable type"), st1) ∧
  patch_targets' fake_fns stack0 (ims1 ++ im :: ims2) st0
    = (Raise (TypeError "unhashable type"), st1).
Proof.
  intros Hpre Hg Hfn Htr Hmock Hhash.
  assert (Hstep : patch_target' fake_fns stack im st
                  = (Raise (TypeError "unhashable type"), st1)).
  { unfold patch_target. rewrite (bind_run _ _ _ _ _ Hg).
    unfold bind at 1. unfold dict_get. rewrite Hfn.
    unfold bind, py_assert, hash_key. rewrite Htr, Hmock, Hhash. reflexivity. }
  split; [exact Hstep|]. eapply patch_targets_stops; eauto.
Qed.

(** X6.  A target in a module that is not loaded and whose import raises
    makes the iteration and the whole pass raise the import's exception, in
    whatever state the failing import left: what it loaded on its way stays
    loaded, no patcher is entered and the later targets are not looked
    at. *)
Theorem import_error_raises (fake_fns : pydict) (ims1 ims2 : list string) (im : string)
    (stack0 stack : ExitStack) (st0 st st' : interp) (e : exn) :
  patch_targets' fake_fns stack0 ims1 st0 = (Ok stack, st) →
  sys_modules st !! module_name_of im = None →
  import_module (module_name_of im) st = (Raise e, st') →
  patch_target' fake_fns stack im st = (Raise e, st') ∧
  patch_targets' fake_fns stack0 (ims1 ++ im :: ims2) st0 = (Raise e, st').
Proof.
  intros Hpre Hnone Himp.
  assert (Hstep : patch_target' fake_fns stack im st = (Raise e, st')).
  { unfold patch_target. apply bind_Raise. unfold get_or_import.
    rewrite Hnone, Himp. reflexivity. }
  split; [exact Hstep|]. eapply patch_targets_stops; eauto.
Qed.

(** ** The order of the substitutions *)



(** ** The setup as a pass *)

Lemma registry_get (connect fs_connect write_pandas fakes_write_pandas k v : pyobj) :
  pydict_get (registry connect fs_connect write_pandas fakes_write_pandas) k = Some v →
  (py_equal write_pandas k ∧ v = fakes_write_pandas) ∨
  (py_equal connect k ∧ ¬ py_equal connect write_pandas ∧ v = fs_connect).
Proof.
  unfold registry. cbn. destruct (decide (py_equal connect write_pandas)) as [Heq|Hne]; cbn.
  - case_decide as Hk; [|discriminate]. intros [= <-]. left.
    split; [|reflexivity]. unfold py_equal in *. congruence.
  - case_decide; [intros [= <-]; auto|]. case_decide; [|discriminate].
    intros [= <-]. auto.
Qed.

Lemma registry_get_key (connect fs_connect write_pandas fakes_write_pandas k : pyobj) :
  py_equal connect k ∨ py_equal write_pandas k →
  ∃ v, pydict_get (registry connect fs_connect write_pandas fakes_write_pandas) k = Some v ∧
       (v = fs_connect ∨ v = fakes_write_pandas).
Proof.
  intros Hk. unfold registry. cbn.
  destruct (decide (py_equal connect write_pandas)) as [Heq|Hne]; cbn.
  - rewrite decide_True; [eauto|]. unfold py_equal in *. destruct Hk; congruence.
  - case_decide; [eauto|]. case_decide; [eauto|]. tauto.
Qed.

(** When the entry guard passes and the registry can be built, the setup is
    the pass over the targets. *)
Lemma patch_setup_pass (extra_targets : targets) (opts : fakesnow_options) (st : interp)
    (connect write_pandas fakes_write_pandas : pyobj) :
  lookup_var st "snowflake.connector" "connect" = Some connect →
  lookup_var st "snowflake.connector.pandas_tools" "write_pandas" = Some write_pandas →
  lookup_var st "fakesnow.fakes" "write_pandas" = Some fakes_write_pandas →
  isinstance_MagicMock connect = false →
  hashable connect = true →
  hashable write_pandas = true →
  patch_setup import_module extra_targets opts st =
    match patch_targets'
            (registry connect (PyFunc (next_oid st)) write_pandas fakes_write_pandas) []
            (std_targets ++ targets_list extra_targets) (snd (FakeSnow_new opts st)) with
    | (Ok stack, st') =>
        (Ok {| fs := {| fs_options := opts; fs_connect := PyFunc (next_oid st);
                        duck_conn := S (next_oid st) |};
               stack := stack |}, st')
    | (Raise e, st') => (Raise e, st')
    end.
Proof.
  intros Hc Hwp Hfwp Hmock Hhc Hhwp. unfold patch_setup.
  rewrite (bind_run _ _ _ _ _ (getattr_run _ _ _ _ Hc)).
  unfold py_assert. rewrite Hmock. cbn [negb]. unfold bind at 1. cbn [ret].
  unfold bind at 1. cbn [FakeSnow_new].
  set (st_fs := {| sys_modules := sys_modules st; heap := heap st;
                   next_oid := S (S (next_oid st)); open_duck_conns := _ |}).
  assert (Hreg : build_fake_fns
                   {| fs_options := opts; fs_connect := PyFunc (next_oid st);
                      duck_conn := S (next_oid st) |} st_fs
                 = (Ok (registry connect (PyFunc (next_oid st)) write_pandas
                          fakes_write_pandas), st_fs)).
  { unfold build_fake_fns.
    rewrite (bind_run _ _ st_fs st_fs connect) by (apply getattr_run; exact Hc).
    rewrite (bind_run _ _ st_fs st_fs write_pandas) by (apply getattr_run; exact Hwp).
    rewrite (bind_run _ _ st_fs st_fs fakes_write_pandas) by (apply getattr_run; exact Hfwp).
    unfold hash_key. rewrite Hhc, Hhwp. reflexivity. }
  rewrite (bind_run _ _ _ _ _ Hreg). unfold bind, ret.
  destruct (patch_targets' _ _ _ _) as [[stk|e] st']; reflexivity.
Qed.

(** ** Aliases of the standard callables *)



Section Aliases.

Variables connect fs_connect write_pandas fakes_write_pandas : pyobj.
Hypothesis connect_truthy : truthy connect = true.
Hypothesis connect_hashable : hashable connect = true.
Hypothesis write_pandas_truthy : truthy write_pandas = true.
Hypothesis write_pandas_hashable : hashable write_pandas = true.
Hypothesis fs_connect_truthy : truthy fs_connect = true.
Hypothesis fakes_write_pandas_truthy : truthy fakes_write_pandas = true.

Abbreviation fake_fns := (registry connect fs_connect write_pandas fakes_write_pandas).



End Aliases.


(** ** With imports that keep the bindings *)

Hypothesis import_keeps_bindings : import_frame import_module.


(** *** What an open scope calls *)

Lemma holds_fake_frame (h h1 : gmap nat module_dict) (e : entered_patcher) :
  (∀ id n v, obj_var h id n = Some v → obj_var h1 id n = Some v) →
  holds_fake h e → holds_fake h1 e.
Proof. intros Hfr [oid Hl]. exists oid. by apply Hfr. Qed.

Lemma patch_target_fakes (fake_fns : pydict) (stack stack' : ExitStack) (im : string)
    (st st' : interp) :
  patch_target' fake_fns stack im st = (Ok stack', st') →
  Forall (fun e => holds_fake (heap st) e ∧ fake_of_original fake_fns e) stack →
  Forall (fun e => holds_fake (heap st') e ∧ fake_of_original fake_fns e) stack'.
Proof.
  intros Hrun Hall.
  destruct (patch_target_Ok _ _ _ _ _ _ _ Hrun)
    as (id & d & st1 & fn & Hg & Hd & Hfn & _ & Hcase).
  pose proof (get_or_import_frame _ import_keeps_bindings _ _ _ _ Hg) as Hfr.
  assert (Hall1 : Forall (fun e => holds_fake (heap st1) e ∧ fake_of_original fake_fns e)
                    stack).
  { eapply Forall_impl; [exact Hall|]. intros e [H1 H2]. split; [|exact H2].
    eapply holds_fake_frame; eauto. }
  destruct Hcase as [(_ & -> & ->)|(Hnomock & _ & fake & Hget & _ & -> & ->)]; [done|].
  constructor.
  - split.
    + exists (next_oid st1). cbn [entry target the_patcher attribute side_effect_kw].
      rewrite (obj_var_entered import_module) by exact Hd. rewrite decide_True by done. reflexivity.
    + exact Hget.
  - eapply Forall_impl; [exact Hall1|]. intros e [[oid Hl] H2]. split; [|exact H2].
    exists oid. rewrite (obj_var_entered import_module) by exact Hd.
    case_decide as Hdec; [|exact Hl].
    destruct Hdec as [Hid Hn]. exfalso. rewrite <- Hid, <- Hn in Hl.
    unfold obj_var in Hl. rewrite Hd in Hl. cbn in Hl. rewrite Hfn in Hl.
    injection Hl as ->. discriminate.
Qed.

Lemma patch_targets_fakes (fake_fns : pydict) (ims : list string)
    (stack stack' : ExitStack) (st st' : interp) :
  patch_targets' fake_fns stack ims st = (Ok stack', st') →
  Forall (fun e => holds_fake (heap st) e ∧ fake_of_original fake_fns e) stack →
  Forall (fun e => holds_fake (heap st') e ∧ fake_of_original fake_fns e) stack'.
Proof.
  revert stack st. induction ims as [|im rest IH]; intros stack st; cbn [patch_targets].
  - intros [= <- <-]. done.
  - intros H Hall. apply bind_Ok in H as (stack1 & st1 & Hstep & Hrest).
    eapply IH; [exact Hrest|]. eapply patch_target_fakes; eauto.
Qed.

(** X3.  While a scope is open, every variable that it replaced holds a
    [MagicMock] whose side effect is the fake for the callable it replaced:
    [fakes.write_pandas] where a value equal ([==]) to [write_pandas] was,
    and the engine's [fs.connect] where a value equal to [connect] was (when
    the two standard variables hold values that are not equal). *)
Theorem open_scope_calls_fakes (extra_targets : targets) (opts : fakesnow_options)
    (st st' : interp) (s : session) (connect write_pandas fakes_write_pandas : pyobj) :
  lookup_var st "snowflake.connector" "connect" = Some connect →
  lookup_var st "snowflake.connector.pandas_tools" "write_pandas" = Some write_pandas →
  lookup_var st "fakesnow.fakes" "write_pandas" = Some fakes_write_pandas →
  patch_setup import_module extra_targets opts st = (Ok s, st') →
  ∀ e, e ∈ stack s →
    holds_fake (heap st') e ∧
    ((py_equal write_pandas (temp_original e) ∧
      side_effect_kw (the_patcher e) = fakes_write_pandas) ∨
     (py_equal connect (temp_original e) ∧ ¬ py_equal connect write_pandas ∧
      side_effect_kw (the_patcher e) = fs_connect (fs s))).
Proof.
  intros Hc Hwp Hfwp Hsetup e He.
  destruct (patch_setup_Ok _ _ _ _ _ _ Hsetup)
    as (c & wp & fwp & Hc' & _ & Hwp' & Hfwp' & Hfs & Hpass).
  rewrite Hc in Hc'. rewrite Hwp in Hwp'. rewrite Hfwp in Hfwp'.
  injection Hc' as <-. injection Hwp' as <-. injection Hfwp' as <-.
  cbn in Hfs. injection Hfs as Hfs.
  pose proof (patch_targets_fakes _ _ _ _ _ _ Hpass (Forall_nil_2 _)) as Hall.
  rewrite Forall_forall in Hall. destruct (Hall e He) as [Hhold Hfake].
  split; [exact Hhold|]. rewrite Hfs. cbn [fs_connect].
  apply registry_get in Hfake. exact Hfake.
Qed.

(** ** A setup that fails *)

(** An import registers new names and leaves the registered ones alone, and
    so does an import that raises, whatever it loaded before it failed. *)
Hypothesis import_registers_new_names : import_keeps_names import_module.
Hypothesis failed_import_keeps : failed_import_frame import_module.

(** Whatever its outcome, an iteration leaves the state in which it began,
    or the state after the import (which may have failed), or that state
    with one more patcher entered. *)
Lemma patch_target_any (fake_fns : pydict) (stack : ExitStack) (im : string)
    (st st' : interp) (r : result ExitStack) :
  patch_target' fake_fns stack im st = (r, st') →
  ∃ st1,
    (st1 = st ∨
     (sys_modules st !! module_name_of im = None ∧
      ∃ r, import_module (module_name_of im) st = (r, st1))) ∧
    (st' = st1 ∨
     ∃ id fake d, heap st1 !! id = Some d ∧ st' = entered id im fake d st1).
Proof.
  unfold patch_target, bind, get_or_import, dict_get.
  destruct (sys_modules st !! module_name_of im) as [id|] eqn:Hid.
  - intros H. exists st. split; [by left|]. revert H.
    destruct (obj_var (heap st) id (fn_name_of im)) as [fn|]; [|intros [= _ <-]; by left].
    unfold py_assert. destruct (truthy fn); [|intros [= _ <-]; by left]. cbn [ret].
    destruct (isinstance_MagicMock fn); [intros [= _ <-]; by left|].
    unfold hash_key. destruct (hashable fn); [|intros [= _ <-]; by left]. cbn [ret].
    destruct (pydict_get fake_fns fn) as [fake|]; [|intros [= _ <-]; by left].
    destruct (truthy fake); [|intros [= _ <-]; by left]. cbn [ret].
    unfold mock_patch. destruct (split_dot im) as [|? [|? ?]];
      try (intros [= _ <-]; by left).
    cbn [ret]. unfold enter_context, bind, mock_patch_enter. cbn [getter attribute].
    rewrite Hid. destruct (heap st !! id) as [d|] eqn:Hd; [|intros [= _ <-]; by left].
    destruct (d !! fn_name_of im) as [orig|]; [|intros [= _ <-]; by left].
    cbn [ret]. intros [= _ <-]. right. exists id, fake, d. done.
  - destruct (import_module (module_name_of im) st) as [[u|e] st1] eqn:Himp;
      [|intros [= _ <-]; exists st1; split; [right; eauto|by left]].
    intros H. exists st1. split; [right; eauto|]. revert H.
    destruct (sys_modules st1 !! module_name_of im) as [id|] eqn:Hid1;
      [|intros [= _ <-]; by left].
    destruct (obj_var (heap st1) id (fn_name_of im)) as [fn|]; [|intros [= _ <-]; by left].
    unfold py_assert. destruct (truthy fn); [|intros [= _ <-]; by left]. cbn [ret].
    destruct (isinstance_MagicMock fn); [intros [= _ <-]; by left|].
    unfold hash_key. destruct (hashable fn); [|intros [= _ <-]; by left]. cbn [ret].
    destruct (pydict_get fake_fns fn) as [fake|]; [|intros [= _ <-]; by left].
    destruct (truthy fake); [|intros [= _ <-]; by left]. cbn [ret].
    unfold mock_patch. destruct (split_dot im) as [|? [|? ?]];
      try (intros [= _ <-]; by left).
    cbn [ret]. unfold enter_context, bind, mock_patch_enter. cbn [getter attribute].
    rewrite Hid1. destruct (heap st1 !! id) as [d|] eqn:Hd; [|intros [= _ <-]; by left].
    destruct (d !! fn_name_of im) as [orig|]; [|intros [= _ <-]; by left].
    cbn [ret]. intros [= _ <-]. right. exists id, fake, d. done.
Qed.

Lemma patch_target_any_mock (fake_fns : pydict) (stack : ExitStack) (im : string)
    (st st' : interp) (r : result ExitStack) (m : string) (id : nat) (n : string) :
  patch_target' fake_fns stack im st = (r, st') →
  sys_modules st !! m = Some id ∧ is_mock_var (heap st) id n →
  sys_modules st' !! m = Some id ∧ is_mock_var (heap st') id n.
Proof.
  intros Hrun [Hm Hmock].
  destruct (patch_target_any _ _ _ _ _ _ Hrun) as (st1 & Himp & Hent).
  assert (H1 : sys_modules st1 !! m = Some id ∧ is_mock_var (heap st1) id n).
  { destruct Himp as [->|[Hnone [[u|e] Himp]]]; [done| |].
    - split.
      + eapply import_registers_new_names; eauto.
      + eapply is_mock_var_frame; [|exact Hmock].
        eapply import_keeps_bindings; eauto.
    - destruct (failed_import_keeps _ _ _ _ Hnone Himp) as [Hvars Hnames]. split.
      + by apply Hnames.
      + eapply is_mock_var_frame; [|exact Hmock]. exact Hvars. }
  destruct Hent as [->|(id0 & fake & d & Hd & ->)]; [exact H1|].
  destruct H1 as [Hm1 Hmock1]. split; [exact Hm1|].
  by apply (is_mock_var_entered import_module).
Qed.

Lemma patch_targets_any_mock (fake_fns : pydict) (ims : list string) (stack : ExitStack)
    (st st' : interp) (r : result ExitStack) (m : string) (id : nat) (n : string) :
  patch_targets' fake_fns stack ims st = (r, st') →
  sys_modules st !! m = Some id ∧ is_mock_var (heap st) id n →
  sys_modules st' !! m = Some id ∧ is_mock_var (heap st') id n.
Proof.
  revert stack st. induction ims as [|im rest IH]; intros stack st; cbn [patch_targets].
  - intros [= _ <-]. done.
  - unfold bind.
    destruct (patch_target' fake_fns stack im st) as [[stack1|e] st1] eqn:Hstep.
    + intros Hrest Hinv. eapply IH; [exact Hrest|].
      eapply patch_target_any_mock; eauto.
    + intros [= _ <-] Hinv. eapply patch_target_any_mock; eauto.
Qed.

(** X9.  A setup that raises after the entry guard has passed and the
    registry was built leaves [snowflake.connector.connect] bound to a mock:
    the [with] statement raises the setup's exception without running the
    block or the [finally] block, and every later [patch] is refused with
    "already patched".  The imports made on the way, those that raise
    included, are taken to keep what is bound. *)
Theorem failed_setup_blocks_patch {A B} (extra_targets inner : targets)
    (opts opts' : fakesnow_options) (body : M A) (body' : M B) (st st1 : interp) (e : exn)
    (connect write_pandas fakes_write_pandas : pyobj) :
  lookup_var st "snowflake.connector" "connect" = Some connect →
  lookup_var st "snowflake.connector.pandas_tools" "write_pandas" = Some write_pandas →
  lookup_var st "fakesnow.fakes" "write_pandas" = Some fakes_write_pandas →
  isinstance_MagicMock connect = false →
  truthy connect = true →
  hashable connect = true →
  hashable write_pandas = true →
  truthy fakes_write_pandas = true →
  patch_setup import_module extra_targets opts st = (Raise e, st1) →
  with_patch import_module extra_targets opts body st = (Raise e, st1) ∧
  (∃ oid se, lookup_var st1 "snowflake.connector" "connect" = Some (PyMagicMock oid se)) ∧
  with_patch import_module inner opts' body' st1
    = (Raise (AssertionError AlreadyPatched), st1).
Proof.
  intros Hc Hwp Hfwp Hmock Htc Hhc Hhwp Htf Hsetup.
  assert (Hmocked : ∃ oid se, lookup_var st1 "snowflake.connector" "connect"
                                = Some (PyMagicMock oid se)).
  { rewrite (patch_setup_pass _ _ _ _ _ _ Hc Hwp Hfwp Hmock Hhc Hhwp) in Hsetup.
    change (std_targets ++ targets_list extra_targets)
      with ("snowflake.connector.connect"
              :: ("snowflake.connector.pandas_tools.write_pandas"
                    :: targets_list extra_targets)) in Hsetup.
    rewrite patch_targets_cons in Hsetup.
    set (st_fs := snd (FakeSnow_new opts st)) in *.
    set (fns := registry _ _ _ _) in *.
    unfold lookup_var in Hc.
    destruct (sys_modules st !! "snowflake.connector") as [id0|] eqn:Hid0; [|discriminate].
    cbn in Hc.
    assert (Hd : ∃ d, heap st !! id0 = Some d ∧ d !! "connect" = Some connect).
    { unfold obj_var in Hc. destruct (heap st !! id0) as [d|]; [eauto|discriminate]. }
    destruct Hd as (d & Hd & Hdc).
    destruct (registry_get_key connect (PyFunc (next_oid st)) write_pandas
                fakes_write_pandas connect (or_introl eq_refl)) as (v & Hget & Hv).
    assert (Htv : truthy v = true) by (destruct Hv as [->| ->]; done).
    assert (Hstep : patch_target' fns [] "snowflake.connector.connect" st_fs
                    = (Ok [entry id0 "snowflake.connector.connect" v connect],
                       entered id0 "snowflake.connector.connect" v d st_fs)).
    { unfold patch_target.
      change (module_name_of "snowflake.connector.connect") with "snowflake.connector".
      change (fn_name_of "snowflake.connector.connect") with "connect".
      rewrite (bind_run _ _ st_fs st_fs id0)
        by (apply get_or_import_loaded; exact Hid0).
      unfold bind at 1. unfold dict_get.
      change (heap st_fs) with (heap st). rewrite Hc.
      unfold bind at 1. unfold py_assert. rewrite Htc. cbn [ret]. rewrite Hmock.
      unfold bind at 1. unfold hash_key. rewrite Hhc. cbn [ret].
      fold fns in Hget. rewrite Hget.
      unfold bind at 1. unfold py_assert. rewrite Htv. cbn [ret].
      unfold bind at 1. unfold mock_patch. cbn [split_dot Ascii.eqb Bool.eqb ret].
      unfold enter_context, bind, mock_patch_enter. cbn [getter attribute].
      change (module_name_of "snowflake.connector.connect") with "snowflake.connector".
      change (fn_name_of "snowflake.connector.connect") with "connect".
      change (sys_modules st_fs) with (sys_modules st).
      change (heap st_fs) with (heap st).
      rewrite Hid0, Hd, Hdc. reflexivity. }
    rewrite (bind_run _ _ _ _ _ Hstep) in Hsetup.
    destruct (patch_targets' fns _ _ _) as [r st2] eqn:Hrest.
    assert (Hst : st2 = st1) by (destruct r; injection Hsetup; auto). subst st2.
    destruct (patch_targets_any_mock _ _ _ _ _ _ "snowflake.connector" id0 "connect" Hrest)
      as [Hname (oid & se & Hfinal)].
    { split; [exact Hid0|]. unfold is_mock_var.
      rewrite (obj_var_entered import_module) by exact Hd.
      change (fn_name_of "snowflake.connector.connect") with "connect".
      rewrite decide_True by done. eauto. }
    exists oid, se. unfold lookup_var. rewrite Hname. exact Hfinal. }
  split; [unfold with_patch; by apply bind_Raise|].
  split; [exact Hmocked|].
  destruct Hmocked as (oid & se & Hm).
  unfold with_patch. apply bind_Raise. eapply entry_guard_raises. exact Hm.
Qed.

End PatchScope.

(** * More properties of [server] *)

Section ServerScope.

Variable os_assigned_port : Z.
Variable thread_is_alive : nat -> bool.
Variable server_started : nat -> bool.

Abbreviation find_port' := (find_port os_assigned_port).
Abbreviation wait_started' := (wait_started thread_is_alive server_started).
Abbreviation server_setup' := (server_setup os_assigned_port thread_is_alive server_started).
Abbreviation with_server' :=
  (with_server os_assigned_port thread_is_alive server_started).

(** The port search changes neither the clock nor [should_exit], and adds
    the probe's events or nothing. *)
Lemma find_port_world (port : option Z) (w : world) :
  clock (find_port' port w).2 = clock w ∧
  should_exit (find_port' port w).2 = should_exit w ∧
  ∃ l, trace (find_port' port w).2 = trace w ++ l ∧
       Forall (fun ev => setup_event ev = true) l.
Proof.
  unfold find_port, probe_port. destruct (not_port port); cbn.
  - repeat split. exists (probe_events os_assigned_port). split.
    + cbn. repeat rewrite <- app_assoc. reflexivity.
    + repeat constructor.
  - repeat split. exists []. rewrite app_nil_r. split; [reflexivity|constructor].
Qed.

(** The loop looks at the thread at least once. *)
Lemma wait_started_clock (fuel : nat) (w w' : world) :
  wait_started' fuel w = Some w' → clock w < clock w'.
Proof.
  revert w. induction fuel as [|fuel IH]; intros w; cbn [wait_started]; [discriminate|].
  unfold is_alive, started.
  destruct (thread_is_alive (clock w)).
  - destruct (server_started (clock (tick w))); cbn [negb].
    + intros [= <-]. cbn. lia.
    + intros H. apply IH in H. cbn in H. lia.
  - intros [= <-]. cbn. lia.
Qed.

(** X10.  An explicit port other than 0 is used as it is, whatever its value:
    no probe socket is opened, the thread is started on that port and the
    yielded port is that port. *)
Theorem explicit_port_used (fuel : nat) (p : Z) (overrides : option (gmap string pyval))
    (w w' : world) (params : conn_params) :
  p ≠ 0%Z →
  server_setup' fuel (Some p) overrides w = Some (Ok params, w') →
  port params = p ∧
  ∃ n, trace w' = trace w ++ ThreadStart p :: replicate n Sleep.
Proof.
  intros Hp Hsetup.
  apply server_setup_Ok in Hsetup as (_ & -> & _ & n & Htrace).
  rewrite (find_port_given os_assigned_port p w Hp) in Htrace.
  rewrite (find_port_given os_assigned_port p w Hp). cbn [fst snd yielded port] in *.
  split; [reflexivity|]. exists n. exact Htrace.
Qed.

(** X11.  [server] yields only after it has read [server.started] as true:
    the last thing the setup does before yielding is that read, at a clock
    value after the thread was started. *)
Theorem yields_only_when_started (fuel : nat) (port : option Z)
    (overrides : option (gmap string pyval)) (w w' : world) (params : conn_params) :
  server_setup' fuel port overrides w = Some (Ok params, w') →
  ∃ t, clock w < t ∧ clock w' = S t ∧ server_started t = true.
Proof.
  unfold server_setup. destruct (find_port' port w) as [p w1] eqn:Hfp.
  destruct (find_port_world port w) as (Hclock & _). rewrite Hfp in Hclock. cbn in Hclock.
  destruct (Z.eqb_spec p 0) as [|Hp]; [discriminate|].
  destruct (wait_started' fuel (emit (ThreadStart p) w1)) as [w2|] eqn:Hwait; [|discriminate].
  apply wait_started_clock in Hwait. cbn in Hwait.
  unfold started. destruct (server_started (clock w2)) eqn:Hst; [|discriminate].
  cbn [negb]. intros [= _ <-]. exists (clock w2). cbn. repeat split; [lia|exact Hst].
Qed.

(** ** Startup that succeeds, and startup that never ends *)

Section Ready.

Variable T : nat.
Hypothesis started_at_T : server_started T = true.
Hypothesis started_stays : ∀ t t', t ≤ t' → server_started t = true → server_started t' = true.
Hypothesis alive_until_started : ∀ t, server_started t = false → thread_is_alive t = true.

Lemma wait_started_ready (n : nat) :
  ∀ w, T - clock w ≤ n →
    ∃ w', (∀ fuel, n < fuel → wait_started' fuel w = Some w') ∧
          server_started (clock w') = true.
Proof.
  induction n as [n IH] using lt_wf_ind. intros w Hn.
  destruct (thread_is_alive (clock w)) eqn:Halive.
  - destruct (server_started (clock (tick w))) eqn:Hst.
    + exists (tick (tick w)). split.
      * intros [|fuel] Hf; [lia|].
        cbn [wait_started]. unfold is_alive, started. rewrite Halive, Hst. reflexivity.
      * eapply started_stays; [|exact Hst]. cbn. lia.
    + assert (Hlt : S (clock w) < T).
      { destruct (decide (S (clock w) < T)) as [|Hge]; [done|].
        cbn in Hst. rewrite (started_stays T (S (clock w))) in Hst by (lia || done).
        discriminate. }
      destruct (IH (n - 1) ltac:(lia) (sleep (tick (tick w)))) as (w' & Hw' & Hready).
      { cbn. lia. }
      exists w'. split; [|exact Hready].
      intros [|fuel] Hf; [lia|].
      cbn [wait_started]. unfold is_alive, started. rewrite Halive, Hst. cbn [negb].
      apply Hw'. lia.
  - assert (Hst : server_started (clock w) = true).
    { destruct (server_started (clock w)) eqn:Hst; [done|].
      rewrite (alive_until_started _ Hst) in Halive. discriminate. }
    exists (tick w). split.
    + intros [|fuel] Hf; [lia|].
      cbn [wait_started]. unfold is_alive. rewrite Halive. reflexivity.
    + eapply started_stays; [|exact Hst]. cbn. lia.
Qed.

End Ready.

(** X12.  When the server sets [started] at some time and keeps it set, and
    its thread is alive as long as [started] is not set, the polling loop
    ends and [server] yields the connection parameters for the resolved
    port: with enough fuel the setup returns them. *)
Theorem startup_success_yields (port : option Z) (overrides : option (gmap string pyval))
    (w : world) (T : nat) :
  server_started T = true →
  (∀ t t', t ≤ t' → server_started t = true → server_started t' = true) →
  (∀ t, server_started t = false → thread_is_alive t = true) →
  (not_port port = true → os_assigned_port ≠ 0%Z) →
  ∃ fuel0 w', ∀ fuel, fuel0 ≤ fuel →
    server_setup' fuel port overrides w
      = Some (Ok (yielded (find_port' port w).1 overrides), w').
Proof.
  intros HT Hmono Halive Hport.
  destruct (find_port' port w) as [p w1] eqn:Hfp.
  assert (Hp : p ≠ 0%Z).
  { unfold find_port, probe_port in Hfp. destruct (not_port port) eqn:Hnot.
    - injection Hfp as <- _. by apply Hport.
    - injection Hfp as <- _. destruct port as [p0|]; [|discriminate].
      cbn in Hnot. by apply Z.eqb_neq. }
  destruct (wait_started_ready T HT Hmono Halive (T - clock (emit (ThreadStart p) w1))
              (emit (ThreadStart p) w1) (le_n _)) as (w2 & Hw2 & Hready).
  exists (S (T - clock (emit (ThreadStart p) w1))), (tick w2). intros fuel Hfuel.
  unfold server_setup. rewrite Hfp. cbn [fst].
  destruct (Z.eqb_spec p 0) as [|_]; [contradiction|].
  rewrite (Hw2 fuel) by lia. unfold started. rewrite Hready. reflexivity.
Qed.

Lemma wait_started_forever (fuel : nat) (w : world) :
  (∀ t, thread_is_alive t = true) →
  (∀ t, server_started t = false) →
  wait_started' fuel w = None.
Proof.
  intros Halive Hnever. revert w. induction fuel as [|fuel IH]; intros w; [reflexivity|].
  cbn [wait_started]. unfold is_alive, started. rewrite Halive, Hnever. cbn [negb].
  apply IH.
Qed.

(** X13.  The wait for the server has no timeout: when the thread stays
    alive and never sets [started], the polling loop runs for as long as it
    is given, so [server] neither yields nor raises, and the block never
    runs. *)
Theorem startup_never_times_out {A} (fuel : nat) (port : option Z)
    (overrides : option (gmap string pyval))
    (body : conn_params → world → option (result A * world)) (w : world) :
  (∀ t, thread_is_alive t = true) →
  (∀ t, server_started t = false) →
  (not_port port = true → os_assigned_port ≠ 0%Z) →
  server_setup' fuel port overrides w = None ∧
  with_server' fuel port overrides body w = None.
Proof.
  intros Halive Hnever Hport.
  assert (Hsetup : server_setup' fuel port overrides w = None).
  { unfold server_setup. destruct (find_port' port w) as [p w1] eqn:Hfp.
    assert (Hp : p ≠ 0%Z).
    { unfold find_port, probe_port in Hfp. destruct (not_port port) eqn:Hnot.
      - injection Hfp as <- _. by apply Hport.
      - injection Hfp as <- _. destruct port as [p0|]; [|discriminate].
        cbn in Hnot. by apply Z.eqb_neq. }
    destruct (Z.eqb_spec p 0) as [|_]; [contradiction|].
    rewrite wait_started_forever by done. reflexivity. }
  split; [exact Hsetup|]. unfold with_server. rewrite Hsetup. reflexivity.
Qed.

(** X14.  When the setup raises, for a failed startup or for the port
    assertion, the exception leaves the [with] statement at once: the block
    does not run, [server.should_exit] is not set and the thread is not
    joined. *)
Theorem failed_startup_skips_shutdown (fuel : nat) (port : option Z)
    (overrides : option (gmap string pyval)) (w w' : world) (e : exn) :
  server_setup' fuel port overrides w = Some (Raise e, w') →
  (∀ A (body : conn_params → world → option (result A * world)),
     with_server' fuel port overrides body w = Some (Raise e, w')) ∧
  should_exit w' = should_exit w ∧
  ∃ l, trace w' = trace w ++ l ∧ Forall (fun ev => setup_event ev = true) l.
Proof.
  intros Hsetup. split.
  { intros A body. unfold with_server. rewrite Hsetup. reflexivity. }
  revert Hsetup. unfold server_setup.
  destruct (find_port_world port w) as (_ & Hse & l1 & Hl1 & Hall1).
  destruct (find_port' port w) as [p w1]. cbn [snd] in *.
  destruct (Z.eqb_spec p 0) as [|Hp].
  - intros [= _ <-]. split; [exact Hse|]. exists l1. done.
  - destruct (wait_started' fuel (emit (ThreadStart p) w1)) as [w2|] eqn:Hwait; [|discriminate].
    apply wait_started_trace in Hwait as [Hse2 [n Hn]].
    unfold started. destruct (server_started (clock w2)); cbn [negb]; [discriminate|].
    intros [= _ <-]. cbn [tick should_exit trace]. split.
    + rewrite Hse2. cbn. exact Hse.
    + exists (l1 ++ ThreadStart p :: replicate n Sleep). split.
      * rewrite Hn. cbn. rewrite Hl1. repeat rewrite <- app_assoc. reflexivity.
      * apply Forall_app. split; [exact Hall1|]. constructor; [reflexivity|].
        apply Forall_replicate. reflexivity.
Qed.

End ServerScope.

(** ** The examples again *)

Lemma scope_exit_closes_engine_witness :
  ∃ st', with_patch example_import (ManyTargets ["app.connect"; "lazy.connect"])
           default_options (raise (A:=unit) (RuntimeError "boom")) example_interp
           = (Raise (RuntimeError "boom"), st') ∧
         (open_duck_conns st' =
            open_duck_conns
              (entered 13 "app.connect" (PyFunc 100) example_app_dict example_lazy_loaded)
              ∖ {[ 101 ]}) ∧
         (101 ∉ open_duck_conns st') ∧
         sys_modules st' = <["lazy" := 14]> example_names.
Proof.
  apply (scope_exit_closes_engine example_import
           (ManyTargets ["app.connect"; "lazy.connect"]) default_options
           (raise (RuntimeError "boom")) example_interp _ _ _ (Raise (RuntimeError "boom"))
           lazy_import_sees_fake eq_refl).
Defined.


Lemma open_scope_calls_fakes_witness :
  holds_fake
    (heap (patch_setup example_import (ManyTargets ["app.connect"]) default_options
             example_wrapped).2)
    (entry 13 "app.connect" (PyFunc 100) (PyProxy 8 true (PyFunc 1))) ∧
  ((py_equal (PyFunc 2) (PyProxy 8 true (PyFunc 1)) ∧ PyFunc 100 = PyFunc 3) ∨
   (py_equal (PyFunc 1) (PyProxy 8 true (PyFunc 1)) ∧ ¬ py_equal (PyFunc 1) (PyFunc 2) ∧
    PyFunc 100 = fs_connect example_fs)).
Proof.
  apply (open_scope_calls_fakes example_import (disk_import_frame example_disk)
           (ManyTargets ["app.connect"]) default_options example_wrapped
           _ {| fs := example_fs;
                stack := entry 13 "app.connect" (PyFunc 100) (PyProxy 8 true (PyFunc 1))
                           :: example_std_stack |}
           (PyFunc 1) (PyFunc 2) (PyFunc 3) eq_refl eq_refl eq_refl
           ltac:(vm_compute; reflexivity)
           (entry 13 "app.connect" (PyFunc 100) (PyProxy 8 true (PyFunc 1)))).
  left.
Defined.

Lemma missing_var_raises_witness :
  patch_target example_import example_fake_fns example_std_stack "app.missing" example_patched
    = (Raise (AssertionError (NoModuleVar "app.missing")), example_patched) ∧
  patch_targets example_import example_fake_fns []
      (std_targets ++ ["app.missing"; "app.connect"])
      (FakeSnow_new default_options example_interp).2
    = (Raise (AssertionError (NoModuleVar "app.missing")), example_patched).
Proof.
  apply (missing_var_raises example_import example_fake_fns std_targets ["app.connect"]
           "app.missing" [] example_std_stack
           (FakeSnow_new default_options example_interp).2 example_patched example_patched 13).
  - vm_compute. reflexivity.
  - vm_compute. reflexivity.
  - left. vm_compute. reflexivity.
Defined.

Lemma unhashable_var_raises_witness :
  patch_target example_import example_fake_fns example_std_stack "app.cache" example_odd
    = (Raise (TypeError "unhashable type"), example_odd) ∧
  patch_targets example_import example_fake_fns example_std_stack
      ([] ++ ["app.cache"; "app.connect"]) example_odd
    = (Raise (TypeError "unhashable type"), example_odd).
Proof.
  apply (unhashable_var_raises example_import example_fake_fns [] ["app.connect"]
           "app.cache" example_std_stack example_std_stack example_odd example_odd
           example_odd 13 (PyOther 8 true false));
    vm_compute; reflexivity.
Defined.

Lemma import_error_raises_witness :
  patch_target pkg_import example_fake_fns example_std_stack "pkg.missing.connect"
      example_patched
    = (Raise (ImportError "pkg.missing"), example_pkg_loaded) ∧
  patch_targets pkg_import example_fake_fns []
      (std_targets ++ ["pkg.missing.connect"; "app.connect"])
      (FakeSnow_new default_options example_interp).2
    = (Raise (ImportError "pkg.missing"), example_pkg_loaded).
Proof.
  apply (import_error_raises pkg_import example_fake_fns std_targets ["app.connect"]
           "pkg.missing.connect" [] example_std_stack
           (FakeSnow_new default_options example_interp).2 example_patched
           example_pkg_loaded (ImportError "pkg.missing"));
    vm_compute; reflexivity.
Defined.



Lemma failed_setup_blocks_patch_witness :
  with_patch pkg_import (OneTarget "pkg.missing.connect") default_options (ret tt)
      example_interp
    = (Raise (ImportError "pkg.missing"), example_pkg_loaded) ∧
  (∃ oid se, lookup_var example_pkg_loaded "snowflake.connector" "connect"
               = Some (PyMagicMock oid se)) ∧
  with_patch pkg_import (ManyTargets []) default_options (ret tt) example_pkg_loaded
    = (Raise (AssertionError AlreadyPatched), example_pkg_loaded).
Proof.
  apply (failed_setup_blocks_patch pkg_import pkg_import_frame pkg_import_names
           pkg_import_failed (OneTarget "pkg.missing.connect") (ManyTargets [])
           default_options default_options (ret tt) (ret tt) example_interp
           example_pkg_loaded (ImportError "pkg.missing") (PyFunc 1) (PyFunc 2) (PyFunc 3));
    vm_compute; reflexivity.
Defined.

Lemma explicit_port_used_witness :
  port (yielded 8000 None) = 8000%Z ∧
  ∃ n, trace {| clock := 6; trace := [ThreadStart 8000; Sleep]; should_exit := false |}
       = trace example_world ++ ThreadStart 8000 :: replicate n Sleep.
Proof.
  apply (explicit_port_used example_port example_alive example_started 10 8000%Z None
           example_world _ (yielded 8000 None)).
  - discriminate.
  - vm_compute. reflexivity.
Defined.

Lemma yields_only_when_started_witness :
  ∃ t, clock example_world < t ∧ clock example_ready = S t ∧ example_started t = true.
Proof.
  apply (yields_only_when_started example_port example_alive example_started 10 None None
           example_world example_ready (yielded example_port None)).
  vm_compute. reflexivity.
Defined.

Lemma startup_success_yields_witness :
  ∃ fuel0 w', ∀ fuel, fuel0 ≤ fuel →
    server_setup example_port always_alive slow_started fuel None None example_world
      = Some (Ok (yielded (find_port example_port None example_world).1 None), w').
Proof.
  apply (startup_success_yields example_port always_alive slow_started None None
           example_world 7).
  - reflexivity.
  - intros t t' Hle Ht. unfold slow_started in *.
    apply Nat.leb_le. apply Nat.leb_le in Ht. lia.
  - reflexivity.
  - discriminate.
Defined.

Lemma startup_never_times_out_witness :
  server_setup example_port always_alive never_started 1000 None None example_world = None ∧
  with_server example_port always_alive never_started 1000 None None example_body
    example_world = None.
Proof.
  apply (startup_never_times_out example_port always_alive never_started 1000 None None
           example_body example_world); [reflexivity|reflexivity|discriminate].
Defined.

Lemma failed_startup_skips_shutdown_witness :
  (∀ A (body : conn_params → world → option (result A * world)),
     with_server example_port crashing_alive never_started 10 None None body example_world
       = Some (Raise (RuntimeError "Failed to start server"),
               {| clock := 8;
                  trace := probe_events example_port
                             ++ [ThreadStart example_port; Sleep; Sleep];
                  should_exit := false |})) ∧
  false = should_exit example_world ∧
  ∃ l, probe_events example_port ++ [ThreadStart example_port; Sleep; Sleep]
       = trace example_world ++ l ∧
       Forall (fun ev => setup_event ev = true) l.
Proof.
  apply (failed_startup_skips_shutdown example_port crashing_alive never_started 10 None None
           example_world
           {| clock := 8;
              trace := probe_events example_port
                         ++ [ThreadStart example_port; Sleep; Sleep];
              should_exit := false |}
           (RuntimeError "Failed to start server")).
  vm_compute. reflexivity.
Defined.

Lemma patch_pass_round_trip_witness :
  lookup_var example_interp "app" "connect" = Some (PyFunc 1) ∧
  lookup_var example_closed "app" "connect" = Some (PyFunc 1).
Proof.
  split; [reflexivity|].
  apply (patch_pass_round_trip example_import (disk_import_frame example_disk)
           (disk_import_names example_disk) (ManyTargets ["app.connect"; "lazy.connect"])
           default_options example_interp example_closed with_patch_example
           "app" "connect" (PyFunc 1)).
  reflexivity.
Defined.

Lemma nested_patch_raises_witness :
  with_patch example_import (OneTarget "app.helper") default_options (ret tt)
    (entered 13 "app.connect" (PyFunc 100) example_app_dict example_lazy_loaded)
  = (Raise (AssertionError AlreadyPatched),
     entered 13 "app.connect" (PyFunc 100) example_app_dict example_lazy_loaded).
Proof.
  apply (nested_patch_raises example_import (disk_import_frame example_disk)
           (disk_import_names example_disk) (ManyTargets ["app.connect"; "lazy.connect"])
           (OneTarget "app.helper") default_options default_options (ret tt)
           example_interp _ _ lazy_import_sees_fake).
Defined.
